(** * Simple Bank API (src/main.py): accounts, deposit, withdraw, transfer

    Shallow embedding of the FastAPI/sqlite3 service of [src/main.py].
    Python [float] values are IEEE binary64 numbers and are modelled by the
    kernel's primitive floats; Python's [<], [<=], [+] and [-] on floats are
    [PrimFloat.ltb], [PrimFloat.leb], [PrimFloat.add] and [PrimFloat.sub].

    The [accounts] table is the list of its rows in rowid order, together with
    the AUTOINCREMENT counter.  The SQLite engine is modelled where the code
    depends on it:
    - a float parameter that is NaN is bound as SQL NULL
      ([sqlite3_bind_double]), so writing it into the [NOT NULL] column
      [balance] fails with an [IntegrityError];
    - inserting an [account_number] already present violates [UNIQUE];
    - any other failure of a write (I/O error, busy database, ...) is decided
      by an environment oracle [io_fault], a variable of the section, so every
      theorem holds for every behaviour of the storage.
    An operation that raises after a write calls [conn.rollback()], which
    restores the table as it was when the operation started; a successful
    one calls [conn.commit()]. *)

From Stdlib Require Import ZArith String List Bool Floats Lia.
From Stdlib Require Import FloatAxioms.
Import ListNotations.

Open Scope string_scope.

(** ** Pydantic models *)

Record Account := mkAccount {
  id : Z;
  account_number : string;
  account_holder : string;
  balance : float
}.

Module AccountCreate.
Record t := mk {
  account_holder : string;
  initial_deposit : float (* default 0.0 *)
}.
End AccountCreate.

Module Transaction.
Record t := mk { amount : float }.
End Transaction.

Module Transfer.
Record t := mk {
  from_account_number : string;
  to_account_number : string;
  amount : float
}.
End Transfer.

(** Body of a successful transfer response. *)
Record TransferResponse := mkTransferResponse {
  message : string;
  from_account : string;
  to_account : string;
  moved : float
}.

(** ** Errors *)

(** [HTTPException(status_code, detail)], the one exception type of the API. *)
Record HTTPException := mkHTTPException {
  status_code : Z;
  detail : string
}.

(** The [sqlite3.Error]s a write can raise. *)
Inductive sqlite_error :=
| NotNullConstraint
| UniqueConstraint
| OperationalError (msg : string).

Definition sqlite_error_msg (e : sqlite_error) : string :=
  match e with
  | NotNullConstraint => "NOT NULL constraint failed: accounts.balance"
  | UniqueConstraint => "UNIQUE constraint failed: accounts.account_number"
  | OperationalError m => m
  end.

Inductive sql_result (A : Type) :=
| SqlOk (a : A)
| SqlErr (e : sqlite_error).
Arguments SqlOk {A} a.
Arguments SqlErr {A} e.

(** Outcome of a route handler: its return value or the raised exception. *)
Inductive outcome (A : Type) :=
| Return (a : A)
| Raise (e : HTTPException).
Arguments Return {A} a.
Arguments Raise {A} e.

(** ** The database *)

Record store := mkStore {
  rows : list Account;
  seq : Z (* sqlite_sequence: the largest id handed out so far *)
}.

(** [init_db()]: the freshly created, empty [accounts] table. *)
Definition init_db : store := mkStore [] 0.

(** The statements the code issues, as seen by the storage oracle: the
    [INSERT], the [UPDATE]s and the [SELECT ... WHERE account_number = ?]. *)
Inductive sql_statement :=
| WInsert (number holder : string) (bal : float)
| WUpdate (number : string) (bal : float)
| RSelect (number : string).

(** Python's float comparisons and arithmetic. *)
Definition py_lt (x y : float) : bool := (x <? y)%float.
Definition py_le (x y : float) : bool := (x <=? y)%float.

(** A NaN parameter is bound as NULL by [sqlite3_bind_double]. *)
Definition binds_as_null (f : float) : bool := negb (f =? f)%float.

(** [SELECT * FROM accounts WHERE account_number = ?] followed by
    [fetchone()]. *)
Fixpoint select_by_number (rs : list Account) (n : string) : option Account :=
  match rs with
  | [] => None
  | r :: rs' =>
      if String.eqb (account_number r) n then Some r else select_by_number rs' n
  end.

Definition with_balance (a : Account) (b : float) : Account :=
  mkAccount (id a) (account_number a) (account_holder a) b.

(** Python substring test [needle in hay]. *)
Fixpoint contains (needle hay : string) : bool :=
  String.prefix needle hay ||
  match hay with
  | EmptyString => false
  | String _ hay' => contains needle hay'
  end.

Section Bank.

(** Failures of the storage itself, decided by the environment, for reads
    and writes alike. *)
Variable io_fault : list Account -> sql_statement -> option sqlite_error.

(** [UPDATE accounts SET balance = ? WHERE account_number = ?] *)
Definition exec_update (s : store) (n : string) (v : float) : sql_result store :=
  if binds_as_null v then SqlErr NotNullConstraint else
  match io_fault (rows s) (WUpdate n v) with
  | Some e => SqlErr e
  | None =>
      SqlOk (mkStore
               (map (fun r => if String.eqb (account_number r) n
                              then with_balance r v else r) (rows s))
               (seq s))
  end.

(** [INSERT INTO accounts (account_number, account_holder, balance)
    VALUES (?, ?, ?)]; returns the new table and [cursor.lastrowid].  The
    row keeps the bound value; SQLite reads a stored [-0.0] back as [0.0],
    which Python's float comparisons do not tell apart. *)
Definition exec_insert (s : store) (n holder : string) (v : float)
  : sql_result (store * Z) :=
  if binds_as_null v then SqlErr NotNullConstraint else
  match select_by_number (rows s) n with
  | Some _ => SqlErr UniqueConstraint
  | None =>
      match io_fault (rows s) (WInsert n holder v) with
      | Some e => SqlErr e
      | None =>
          let new_id := (seq s + 1)%Z in
          SqlOk (mkStore (rows s ++ [mkAccount new_id n holder v]) new_id, new_id)
      end
  end.

(** [get_account_by_number(conn, account_number)]: a [sqlite3.Error] of the
    [SELECT] becomes a 500 error; the 404 [HTTPException] is not a
    [sqlite3.Error] and passes through. *)
Definition get_account_by_number (s : store) (n : string) : outcome Account :=
  match io_fault (rows s) (RSelect n) with
  | Some e => Raise (mkHTTPException 500 ("Database error: " ++ sqlite_error_msg e))
  | None =>
      match select_by_number (rows s) n with
      | None => Raise (mkHTTPException 404 "Account not found")
      | Some a => Return a
      end
  end.

(** [create_account(account_in)]; [account_number] is the value drawn by
    [generate_account_number()]. *)
Definition create_account (s : store) (account_in : AccountCreate.t)
    (account_number : string) : outcome Account * store :=
  if py_lt (AccountCreate.initial_deposit account_in) 0 then
    (Raise (mkHTTPException 400 "Initial deposit cannot be negative."), s)
  else
    match exec_insert s account_number (AccountCreate.account_holder account_in)
            (AccountCreate.initial_deposit account_in) with
    | SqlOk (s', new_account_id) =>
        (Return (mkAccount new_account_id account_number
                   (AccountCreate.account_holder account_in)
                   (AccountCreate.initial_deposit account_in)), s')
    | SqlErr e =>
        (Raise (mkHTTPException 500
                  ("Failed to create account due to a database error: "
                   ++ sqlite_error_msg e)), s)
    end.

(** [check_balance(account_number)] *)
Definition check_balance (s : store) (n : string) : outcome Account * store :=
  (get_account_by_number s n, s).

(** [deposit(account_number, transaction)] *)
Definition deposit (s : store) (account_number : string)
    (transaction : Transaction.t) : outcome Account * store :=
  if py_le (Transaction.amount transaction) 0 then
    (Raise (mkHTTPException 400 "Deposit amount must be positive."), s)
  else
    match get_account_by_number s account_number with
    | Raise e => (Raise e, s)
    | Return account =>
        let new_balance := (balance account + Transaction.amount transaction)%float in
        match exec_update s account_number new_balance with
        | SqlErr e =>
            (Raise (mkHTTPException 500
                      ("Failed to deposit funds due to a database error: "
                       ++ sqlite_error_msg e)), s)
        | SqlOk s' => (Return (with_balance account new_balance), s')
        end
    end.

(** [withdraw(account_number, transaction)] *)
Definition withdraw (s : store) (account_number : string)
    (transaction : Transaction.t) : outcome Account * store :=
  if py_le (Transaction.amount transaction) 0 then
    (Raise (mkHTTPException 400 "Withdrawal amount must be positive."), s)
  else
    match get_account_by_number s account_number with
    | Raise e => (Raise e, s)
    | Return account =>
        if py_lt (balance account) (Transaction.amount transaction) then
          (Raise (mkHTTPException 400 "Insufficient funds"), s)
        else
          let new_balance := (balance account - Transaction.amount transaction)%float in
          match exec_update s account_number new_balance with
          | SqlErr e =>
              (Raise (mkHTTPException 500
                        ("Failed to withdraw funds due to a database error: "
                         ++ sqlite_error_msg e)), s)
          | SqlOk s' => (Return (with_balance account new_balance), s')
          end
    end.

(** [transfer_funds(transfer)]: every [HTTPException] or [sqlite3.Error]
    raised inside the [try] block is followed by [conn.rollback()], so the
    table is the one the call started from. *)
Definition transfer_funds (s : store) (transfer : Transfer.t)
  : outcome TransferResponse * store :=
  let from_n := Transfer.from_account_number transfer in
  let to_n := Transfer.to_account_number transfer in
  let amount := Transfer.amount transfer in
  let internal e :=
    (Raise (mkHTTPException 500
              ("An internal error occurred during the transfer: "
               ++ sqlite_error_msg e)), s) in
  if String.eqb from_n to_n then
    (Raise (mkHTTPException 400 "Cannot transfer funds to the same account."), s)
  else if py_le amount 0 then
    (Raise (mkHTTPException 400 "Transfer amount must be positive."), s)
  else
    match io_fault (rows s) (RSelect from_n) with
    | Some e => internal e
    | None =>
    match select_by_number (rows s) from_n with
    | None => (Raise (mkHTTPException 404 "Sender account not found."), s)
    | Some from_account =>
        if py_lt (balance from_account) amount then
          (Raise (mkHTTPException 400 "Insufficient funds in sender account."), s)
        else
          match io_fault (rows s) (RSelect to_n) with
          | Some e => internal e
          | None =>
          match select_by_number (rows s) to_n with
          | None => (Raise (mkHTTPException 404 "Receiver account not found."), s)
          | Some to_account =>
              let from_new_balance := (balance from_account - amount)%float in
              let to_new_balance := (balance to_account + amount)%float in
              match exec_update s from_n from_new_balance with
              | SqlErr e => internal e
              | SqlOk s1 =>
                  match exec_update s1 to_n to_new_balance with
                  | SqlErr e => internal e
                  | SqlOk s2 =>
                      (Return (mkTransferResponse "Transfer successful"
                                 from_n to_n amount), s2)
                  end
              end
          end
          end
    end
    end.

(** The requests the API serves. [CreateAccount] carries the account number
    that [generate_account_number()] draws for it. *)
Inductive request :=
| CreateAccount (account_in : AccountCreate.t) (generated : string)
| CheckBalance (n : string)
| Deposit (n : string) (transaction : Transaction.t)
| Withdraw (n : string) (transaction : Transaction.t)
| TransferFunds (transfer : Transfer.t).

(** The table after one request. *)
Definition handle (s : store) (r : request) : store :=
  match r with
  | CreateAccount a g => snd (create_account s a g)
  | CheckBalance n => snd (check_balance s n)
  | Deposit n t => snd (deposit s n t)
  | Withdraw n t => snd (withdraw s n t)
  | TransferFunds t => snd (transfer_funds s t)
  end.

End Bank.

(** Tables reachable from [init_db] by any sequence of requests, the storage
    behaving at each step as it may. *)
Inductive reachable : store -> Prop :=
| reachable_init : reachable init_db
| reachable_step io_fault s r : reachable s -> reachable (handle io_fault s r).

Definition no_fault (_ : list Account) (_ : sql_statement) : option sqlite_error := None.

(** Sign of a binary64 value read as Python's [0 <= x]. *)
Definition nonnegSF (x : spec_float) : bool :=
  match x with
  | S754_zero _ | S754_finite false _ _ | S754_infinity false => true
  | _ => false
  end.

(** ** Transaction boundaries of [transfer_funds]

    Python's [sqlite3] module, with its default (legacy) transaction control,
    issues an implicit [BEGIN] before an [INSERT], [UPDATE], [DELETE] or
    [REPLACE] when no transaction is open; a [SELECT] issued with no open
    transaction runs in autocommit mode. [commit()] and [rollback()] close
    the open transaction. *)
Module Sqlite3Driver.

Inductive stmt :=
| Select (number : string)
| Update (number : string) (bal : float)
| Commit
| Rollback.

Definition opens_transaction (st : stmt) : bool :=
  match st with
  | Update _ _ => true
  | _ => false
  end.

(** Each statement paired with whether it runs inside a transaction. *)
Fixpoint annotate (in_txn : bool) (l : list stmt) : list (stmt * bool) :=
  match l with
  | [] => []
  | st :: l' =>
      let inside := in_txn || opens_transaction st in
      (st, inside)
        :: annotate (match st with Commit | Rollback => false | _ => inside end) l'
  end.

Section Statements.
Variable io_fault : list Account -> sql_statement -> option sqlite_error.

(** The statements [transfer_funds] issues on its connection, following the
    same control flow: both [SELECT]s, then the two [UPDATE]s, then
    [conn.commit()], or [conn.rollback()] where an exception is raised inside
    the [try] block. *)
Definition transfer_statements (s : store) (transfer : Transfer.t) : list stmt :=
  let from_n := Transfer.from_account_number transfer in
  let to_n := Transfer.to_account_number transfer in
  let amount := Transfer.amount transfer in
  if String.eqb from_n to_n then []
  else if py_le amount 0 then []
  else
    Select from_n ::
    match io_fault (rows s) (RSelect from_n) with
    | Some _ => [Rollback]
    | None =>
    match select_by_number (rows s) from_n with
    | None => [Rollback]
    | Some from_account =>
        if py_lt (balance from_account) amount then [Rollback]
        else
          Select to_n ::
          match io_fault (rows s) (RSelect to_n) with
          | Some _ => [Rollback]
          | None =>
          match select_by_number (rows s) to_n with
          | None => [Rollback]
          | Some to_account =>
              let from_new_balance := (balance from_account - amount)%float in
              let to_new_balance := (balance to_account + amount)%float in
              Update from_n from_new_balance ::
              match exec_update io_fault s from_n from_new_balance with
              | SqlErr _ => [Rollback]
              | SqlOk s1 =>
                  Update to_n to_new_balance ::
                  match exec_update io_fault s1 to_n to_new_balance with
                  | SqlErr _ => [Rollback]
                  | SqlOk _ => [Commit]
                  end
              end
          end
          end
    end
    end.

(** [transfer_funds] up to line 189: the checks and the two reads, giving the
    two new balances. *)
Definition transfer_reads (s : store) (transfer : Transfer.t)
  : outcome (float * float) :=
  let from_n := Transfer.from_account_number transfer in
  let to_n := Transfer.to_account_number transfer in
  let amount := Transfer.amount transfer in
  let read_error e :=
    mkHTTPException 500
      ("An internal error occurred during the transfer: " ++ sqlite_error_msg e) in
  if String.eqb from_n to_n then
    Raise (mkHTTPException 400 "Cannot transfer funds to the same account.")
  else if py_le amount 0 then
    Raise (mkHTTPException 400 "Transfer amount must be positive.")
  else
    match io_fault (rows s) (RSelect from_n) with
    | Some e => Raise (read_error e)
    | None =>
    match select_by_number (rows s) from_n with
    | None => Raise (mkHTTPException 404 "Sender account not found.")
    | Some from_account =>
        if py_lt (balance from_account) amount then
          Raise (mkHTTPException 400 "Insufficient funds in sender account.")
        else
          match io_fault (rows s) (RSelect to_n) with
          | Some e => Raise (read_error e)
          | None =>
          match select_by_number (rows s) to_n with
          | None => Raise (mkHTTPException 404 "Receiver account not found.")
          | Some to_account =>
              Return ((balance from_account - amount)%float,
                      (balance to_account + amount)%float)
          end
          end
    end
    end.

(** [transfer_funds] from line 191: the two [UPDATE]s and the commit, on the
    table as it is when they run. *)
Definition transfer_writes (s : store) (transfer : Transfer.t)
    (new_balances : float * float) : outcome TransferResponse * store :=
  let from_n := Transfer.from_account_number transfer in
  let to_n := Transfer.to_account_number transfer in
  let internal e :=
    (Raise (mkHTTPException 500
              ("An internal error occurred during the transfer: "
               ++ sqlite_error_msg e)), s) in
  match exec_update io_fault s from_n (fst new_balances) with
  | SqlErr e => internal e
  | SqlOk s1 =>
      match exec_update io_fault s1 to_n (snd new_balances) with
      | SqlErr e => internal e
      | SqlOk s2 =>
          (Return (mkTransferResponse "Transfer successful"
                     from_n to_n (Transfer.amount transfer)), s2)
      end
  end.

(** Two concurrent transfers where the second one runs to completion between
    the reads and the writes of the first: the reads hold no lock, so
    SQLite admits this schedule. *)
Definition transfers_interleaved (s0 : store) (t1 t2 : Transfer.t)
  : outcome TransferResponse * outcome TransferResponse * store :=
  match transfer_reads s0 t1 with
  | Raise e =>
      let '(r2, s1) := transfer_funds io_fault s0 t2 in (Raise e, r2, s1)
  | Return nb =>
      let '(r2, s1) := transfer_funds io_fault s0 t2 in
      let '(r1, s2) := transfer_writes s1 t1 nb in
      (r1, r2, s2)
  end.

End Statements.
End Sqlite3Driver.


(** Every balance of the table satisfies Python's [balance >= 0]. *)
Definition all_nonneg (s : store) : Prop :=
  Forall (fun a => py_le 0 (balance a) = true) (rows s).

(** The account numbers a request names. *)
Definition named_numbers (r : request) : list string :=
  match r with
  | CreateAccount _ _ | CheckBalance _ => []
  | Deposit n _ | Withdraw n _ => [n]
  | TransferFunds t => [Transfer.from_account_number t; Transfer.to_account_number t]
  end.

(** Row [r'] is row [r] with at most its balance changed, and only if the
    row's number is among [named]. *)
Definition keeps_row (named : list string) (r r' : Account) : Prop :=
  id r' = id r /\ account_number r' = account_number r /\
  account_holder r' = account_holder r /\
  (~ In (account_number r) named -> balance r' = balance r).

(** ** Concrete inputs *)

Definition acc_a : string := "0000000001".
Definition acc_b : string := "0000000002".
Definition acc_c : string := "0000000003".

(** The table after creating the given accounts in order, each with the
    given generated number and initial deposit. *)
Fixpoint open_accounts (s : store) (l : list (string * float)) : store :=
  match l with
  | [] => s
  | (n, d) :: l' =>
      open_accounts (snd (create_account no_fault s (AccountCreate.mk "holder" d) n)) l'
  end.

(** A storage that fails every write, as a full disk does; reads succeed. *)
Definition disk_full (_ : list Account) (st : sql_statement) : option sqlite_error :=
  match st with
  | RSelect _ => None
  | _ => Some (OperationalError "database or disk is full")
  end.

(** ** Account numbers and table shape *)

(** [string.digits] *)
Definition digits : string := "0123456789".

(** [generate_account_number()]: [''.join(random.choices(string.digits, k=10))].
    [pick i] is the index [random.choices] draws for the [i]-th character,
    [floor(random() * 10)], so always below 10. *)
Definition generate_account_number (pick : nat -> nat) : string :=
  fold_right (fun i acc =>
                match String.get (pick i) digits with
                | Some c => String c acc
                | None => acc
                end) EmptyString (List.seq 0 10).

Definition is_digit (c : Ascii.ascii) : bool :=
  (48 <=? Ascii.nat_of_ascii c)%nat && (Ascii.nat_of_ascii c <=? 57)%nat.

(** The [UNIQUE] constraint on [account_number], as a property of a table. *)
Definition account_numbers_unique (s : store) : Prop :=
  NoDup (map account_number (rows s)).

(** AUTOINCREMENT with no deletion: the rows carry ids 1, 2, ..., n in order
    and the counter is n. *)
Definition ids_in_order (s : store) : Prop :=
  map id (rows s) = map Z.of_nat (List.seq 1 (length (rows s))) /\
  seq s = Z.of_nat (length (rows s)).

(** The rows after [UPDATE accounts SET balance = v WHERE account_number = n],
    as [exec_update] computes them. *)
Definition set_balance (rs : list Account) (n : string) (v : float) : list Account :=
  map (fun r => if String.eqb (account_number r) n then with_balance r v else r) rs.

(** * Proofs *)

(** ** Facts on binary64 arithmetic

    Rounding keeps the sign of the exact result: a sum of two non-negative
    values, or a difference [x - y] with [y <= x], is never negative. *)
Module FloatFacts.

Lemma binary_round_pos m e :
  nonnegSF (binary_round prec emax false m e) = true \/
  binary_round prec emax false m e = S754_nan.
Proof.
  unfold binary_round, binary_round_aux.
  destruct (shl_align m e _) as [mz ez].
  destruct (shr_fexp _ _ _ _ _) as [mrs' e'].
  destruct (shr_fexp _ _ _ _ _) as [mrs'' e''].
  destruct (shr_m mrs''); auto.
  destruct (Z.leb _ _); auto.
Qed.

Lemma binary_normalize_nonneg z e :
  (0 <= z)%Z ->
  nonnegSF (binary_normalize prec emax z e false) = true \/
  binary_normalize prec emax z e false = S754_nan.
Proof.
  intros H. destruct z as [|p|p]; simpl; auto using binary_round_pos; lia.
Qed.

Lemma digits2_pos_size p : digits2_pos p = Pos.size p.
Proof. induction p; simpl; congruence. Qed.

Lemma iter_xO p d : Zpos (Pos.iter xO p d) = (Zpos p * 2 ^ Zpos d)%Z.
Proof.
  induction d using Pos.peano_ind.
  - simpl. lia.
  - rewrite Pos.iter_succ, Pos2Z.inj_succ, Z.pow_succ_r by lia.
    change (Zpos (xO (Pos.iter xO p d))) with (2 * Zpos (Pos.iter xO p d))%Z.
    rewrite IHd. lia.
Qed.

Lemma size_bounds p :
  (2 ^ (Zpos (Pos.size p) - 1) <= Zpos p < 2 ^ Zpos (Pos.size p))%Z.
Proof.
  pose proof (Pos.size_gt p) as H1. pose proof (Pos.size_le p) as H2.
  assert (H1' : (Zpos p < Zpos (2 ^ Pos.size p))%Z) by exact H1.
  assert (H2' : (Zpos (2 ^ Pos.size p) <= Zpos (xO p))%Z) by exact H2.
  rewrite Pos2Z.inj_pow in H1', H2'. change (Zpos (xO p)) with (2 * Zpos p)%Z in H2'.
  split; [|lia].
  replace (Zpos (Pos.size p)) with (Zpos (Pos.size p) - 1 + 1)%Z in H2' by lia.
  rewrite Z.pow_add_r, Z.pow_1_r in H2' by lia. lia.
Qed.

Lemma bounded_digits m e :
  bounded prec emax m e = true ->
  (Zpos (Pos.size m) <= 53 /\ -1074 <= e /\ (-1074 < e -> Zpos (Pos.size m) = 53))%Z.
Proof.
  unfold bounded, canonical_mantissa, fexp, emin, prec, emax.
  rewrite digits2_pos_size, andb_true_iff, Z.eqb_eq. intros [H _]. lia.
Qed.

Lemma sub_mantissas_nonneg mx ex my ey :
  bounded prec emax mx ex = true -> bounded prec emax my ey = true ->
  match Z.compare ex ey with Lt => Lt | Gt => Gt | Eq => Pos.compare_cont Eq mx my end <> Lt ->
  (0 <= Zpos (fst (shl_align mx ex (Z.min ex ey))) - Zpos (fst (shl_align my ey (Z.min ex ey))))%Z.
Proof.
  intros Bx By Hc.
  destruct (Z.compare_spec ex ey) as [E|E|E].
  - subst ey. rewrite Z.min_id. unfold shl_align. rewrite Z.sub_diag. cbn [fst].
    rewrite Pos.compare_cont_spec in Hc.
    destruct (Pos.compare_spec mx my); simpl in Hc; try congruence; lia.
  - congruence.
  - rewrite Z.min_r by lia. unfold shl_align at 2. rewrite Z.sub_diag. cbn [fst].
    unfold shl_align. destruct (ey - ex)%Z eqn:D; try lia.
    cbn [fst]. rewrite iter_xO.
    apply bounded_digits in Bx. apply bounded_digits in By.
    pose proof (size_bounds mx). pose proof (size_bounds my).
    destruct Bx as (_ & _ & Bx). destruct By as (By & Ey & _).
    rewrite Bx in H by lia. simpl in H.
    assert (Zpos (Pos.size my) = 53 \/ Zpos (Pos.size my) < 53)%Z as [Ds|Ds] by lia.
    + rewrite Ds in H0. simpl in H0.
      assert (2 ^ Zpos p >= 2)%Z.
      { replace (Zpos p) with (Zpos p - 1 + 1)%Z by lia.
        rewrite Z.pow_add_r, Z.pow_1_r by lia.
        pose proof (Z.pow_pos_nonneg 2 (Zpos p - 1)). lia. }
      nia.
    + assert (2 ^ Zpos (Pos.size my) <= 2 ^ 53)%Z by (apply Z.pow_le_mono_r; lia).
      simpl in H1.
      assert (2 ^ Zpos p >= 2)%Z.
      { replace (Zpos p) with (Zpos p - 1 + 1)%Z by lia.
        rewrite Z.pow_add_r, Z.pow_1_r by lia.
        pose proof (Z.pow_pos_nonneg 2 (Zpos p - 1)). lia. }
      nia.
Qed.

Lemma SFsub_nonneg X Y :
  SpecFloat.valid_binary prec emax X = true ->
  SpecFloat.valid_binary prec emax Y = true ->
  nonnegSF X = true ->
  SFltb X Y = false ->
  SFleb Y (S754_zero false) = false ->
  SF64sub X Y <> S754_nan ->
  nonnegSF (SF64sub X Y) = true.
Proof.
  intros VX VY NX LT LE NN.
  destruct X as [sx|sx| |sx mx ex]; destruct Y as [sy|sy| |sy my ey];
    try destruct sx; try destruct sy; simpl in *; try discriminate; auto.
  unfold SF64sub, SFsub in *.
  unfold SFltb, SFcompare in LT.
  assert (Hc : match Z.compare ex ey with Lt => Lt | Gt => Gt
                 | Eq => Pos.compare_cont Eq mx my end <> Lt).
  { intro C. rewrite C in LT. discriminate. }
  pose proof (sub_mantissas_nonneg mx ex my ey VX VY Hc) as Hz.
  cbn [cond_Zopp].
  destruct (binary_normalize_nonneg _ (Z.min ex ey) Hz) as [H|H]; [exact H|].
  exfalso. exact (NN H).
Qed.

Lemma SFadd_nonneg X Y :
  nonnegSF X = true ->
  SFleb Y (S754_zero false) = false ->
  SF64add X Y <> S754_nan ->
  nonnegSF (SF64add X Y) = true.
Proof.
  intros NX LE NN.
  destruct X as [sx|sx| |sx mx ex]; destruct Y as [sy|sy| |sy my ey];
    try destruct sx; try destruct sy; simpl in *; try discriminate; auto.
  unfold SF64add, SFadd in *. cbn [cond_Zopp] in *.
  destruct (binary_normalize_nonneg (Zpos (fst (shl_align mx ex (Z.min ex ey)))
             + Zpos (fst (shl_align my ey (Z.min ex ey)))) (Z.min ex ey)) as [H|H];
    [lia|exact H|exfalso; exact (NN H)].
Qed.

Lemma Prim2SF_zero : Prim2SF 0 = S754_zero false.
Proof. reflexivity. Qed.

Lemma py_le_zero_l x : py_le 0 x = nonnegSF (Prim2SF x).
Proof.
  unfold py_le. rewrite FloatAxioms.leb_spec, Prim2SF_zero.
  destruct (Prim2SF x) as [[]|[]| |[] m e]; reflexivity.
Qed.

Lemma py_le_zero_r y : py_le y 0 = SFleb (Prim2SF y) (S754_zero false).
Proof. unfold py_le. rewrite FloatAxioms.leb_spec, Prim2SF_zero. reflexivity. Qed.

Lemma not_null_not_nan f : binds_as_null f = false -> Prim2SF f <> S754_nan.
Proof.
  unfold binds_as_null. rewrite FloatAxioms.eqb_spec. intros H E.
  rewrite E in H. discriminate.
Qed.

(** [new_balance = balance - amount] in [withdraw] and [transfer_funds]. *)
Lemma sub_nonneg x y :
  py_le 0 x = true -> py_lt x y = false -> py_le y 0 = false ->
  binds_as_null (x - y) = false -> py_le 0 (x - y) = true.
Proof.
  intros Hx Hlt Hy Hn. rewrite py_le_zero_l in *. rewrite py_le_zero_r in Hy.
  unfold py_lt in Hlt. rewrite FloatAxioms.ltb_spec in Hlt.
  apply not_null_not_nan in Hn. rewrite FloatAxioms.sub_spec in *.
  apply SFsub_nonneg; auto using Prim2SF_valid.
Qed.

(** [new_balance = balance + amount] in [deposit] and [transfer_funds]. *)
Lemma add_nonneg x y :
  py_le 0 x = true -> py_le y 0 = false ->
  binds_as_null (x + y) = false -> py_le 0 (x + y) = true.
Proof.
  intros Hx Hy Hn. rewrite py_le_zero_l in *. rewrite py_le_zero_r in Hy.
  apply not_null_not_nan in Hn. rewrite FloatAxioms.add_spec in *.
  apply SFadd_nonneg; auto.
Qed.

(** [initial_deposit] that passed [create_account]'s check. *)
Lemma not_lt_zero_nonneg d :
  py_lt d 0 = false -> binds_as_null d = false -> py_le 0 d = true.
Proof.
  intros Hlt Hn. rewrite py_le_zero_l. unfold py_lt in Hlt.
  rewrite FloatAxioms.ltb_spec, Prim2SF_zero in Hlt.
  apply not_null_not_nan in Hn.
  destruct (Prim2SF d) as [[]|[]| |[] m e]; unfold SFltb, SFcompare in Hlt; simpl in *; congruence.
Qed.

End FloatFacts.

(** ** The table under the statements the code issues *)
Section StoreFacts.
Variable io_fault : list Account -> sql_statement -> option sqlite_error.

Lemma select_by_number_In rs n a :
  select_by_number rs n = Some a -> In a rs.
Proof.
  induction rs as [|r rs IH]; simpl; [discriminate|].
  destruct (String.eqb (account_number r) n); [injection 1; auto|auto].
Qed.

Lemma exec_update_not_null s n v s' :
  exec_update io_fault s n v = SqlOk s' -> binds_as_null v = false.
Proof.
  unfold exec_update. destruct (binds_as_null v); [discriminate|auto].
Qed.

Lemma exec_update_ok s n v s' :
  exec_update io_fault s n v = SqlOk s' ->
  rows s' = map (fun r => if String.eqb (account_number r) n
                          then with_balance r v else r) (rows s).
Proof.
  unfold exec_update. destruct (binds_as_null v); [discriminate|].
  destruct (io_fault _ _); [discriminate|]. injection 1 as <-. reflexivity.
Qed.

Lemma exec_update_nonneg s n v s' :
  exec_update io_fault s n v = SqlOk s' -> all_nonneg s -> py_le 0 v = true ->
  all_nonneg s'.
Proof.
  intros U Hs Hv. unfold all_nonneg. rewrite (exec_update_ok _ _ _ _ U).
  apply Forall_map. eapply Forall_impl; [|exact Hs].
  intros r Hr. destruct (String.eqb (account_number r) n); auto.
Qed.

Lemma exec_insert_ok s n h v s' i :
  exec_insert io_fault s n h v = SqlOk (s', i) ->
  binds_as_null v = false /\ select_by_number (rows s) n = None /\
  i = (seq s + 1)%Z /\ rows s' = (rows s ++ [mkAccount i n h v])%list.
Proof.
  unfold exec_insert. destruct (binds_as_null v); [discriminate|].
  destruct (select_by_number (rows s) n); [discriminate|].
  destruct (io_fault _ _); [discriminate|]. injection 1 as <- <-. auto.
Qed.

Lemma get_account_In s n a :
  get_account_by_number io_fault s n = Return a -> In a (rows s).
Proof.
  unfold get_account_by_number. destruct (io_fault _ _); [discriminate|].
  destruct (select_by_number (rows s) n) eqn:E;
    [injection 1 as <-; eauto using select_by_number_In|discriminate].
Qed.

Lemma nonneg_of_In s a : all_nonneg s -> In a (rows s) -> py_le 0 (balance a) = true.
Proof. intros H I. unfold all_nonneg in H. rewrite Forall_forall in H. auto. Qed.

(** One request keeps every balance non-negative. *)
Lemma handle_nonneg s r : all_nonneg s -> all_nonneg (handle io_fault s r).
Proof.
  intros Hs. destruct r as [a g|n|n t|n t|t]; simpl.
  - unfold create_account.
    destruct (py_lt (AccountCreate.initial_deposit a) 0) eqn:Lt; [exact Hs|].
    destruct (exec_insert io_fault s g _ _) as [[s' i]|e] eqn:I; [|exact Hs]. simpl.
    apply exec_insert_ok in I as (N & _ & _ & R).
    unfold all_nonneg. rewrite R. apply Forall_app. split; [exact Hs|].
    constructor; [|constructor]. simpl.
    apply FloatFacts.not_lt_zero_nonneg; assumption.
  - exact Hs.
  - unfold deposit.
    destruct (py_le (Transaction.amount t) 0) eqn:Le; [exact Hs|].
    destruct (get_account_by_number io_fault s n) as [acc|e] eqn:G; [|exact Hs].
    destruct (exec_update io_fault s n _) as [s'|e] eqn:U; [|exact Hs]. simpl.
    apply (exec_update_nonneg _ _ _ _ U Hs).
    apply FloatFacts.add_nonneg; [|assumption|eapply exec_update_not_null; eauto].
    eauto using nonneg_of_In, get_account_In.
  - unfold withdraw.
    destruct (py_le (Transaction.amount t) 0) eqn:Le; [exact Hs|].
    destruct (get_account_by_number io_fault s n) as [acc|e] eqn:G; [|exact Hs].
    destruct (py_lt (balance acc) (Transaction.amount t)) eqn:Lt; [exact Hs|].
    destruct (exec_update io_fault s n _) as [s'|e] eqn:U; [|exact Hs]. simpl.
    apply (exec_update_nonneg _ _ _ _ U Hs).
    apply FloatFacts.sub_nonneg; [|assumption|assumption|eapply exec_update_not_null; eauto].
    eauto using nonneg_of_In, get_account_In.
  - unfold transfer_funds.
    destruct (String.eqb _ _); [exact Hs|].
    destruct (py_le (Transfer.amount t) 0) eqn:Le; [exact Hs|].
    destruct (io_fault _ (RSelect (Transfer.from_account_number t))); [exact Hs|].
    destruct (select_by_number (rows s) (Transfer.from_account_number t)) as [fa|] eqn:F;
      [|exact Hs].
    destruct (py_lt (balance fa) (Transfer.amount t)) eqn:Lt; [exact Hs|].
    destruct (io_fault _ (RSelect (Transfer.to_account_number t))); [exact Hs|].
    destruct (select_by_number (rows s) (Transfer.to_account_number t)) as [ta|] eqn:T;
      [|exact Hs].
    destruct (exec_update io_fault s _ (balance fa - _)%float) as [s1|e] eqn:U1;
      [|exact Hs].
    destruct (exec_update io_fault s1 _ (balance ta + _)%float) as [s2|e] eqn:U2;
      [|exact Hs]. simpl.
    assert (Hs1 : all_nonneg s1).
    { apply (exec_update_nonneg _ _ _ _ U1 Hs).
      apply FloatFacts.sub_nonneg; [|assumption|assumption|eapply exec_update_not_null; eauto].
      eauto using nonneg_of_In, select_by_number_In. }
    apply (exec_update_nonneg _ _ _ _ U2 Hs1).
    apply FloatFacts.add_nonneg; [|assumption|eapply exec_update_not_null; eauto].
    eauto using nonneg_of_In, select_by_number_In.
Qed.

End StoreFacts.

(** ** The concrete scenarios of the spec *)

Example scenario_create :
  fst (create_account no_fault init_db (AccountCreate.mk "Aswin" 100) acc_a)
  = Return (mkAccount 1 acc_a "Aswin" 100).
Proof. vm_compute. reflexivity. Qed.

Example scenario_negative_deposit :
  create_account no_fault init_db (AccountCreate.mk "Sreerag" (-50)) acc_a
  = (Raise (mkHTTPException 400 "Initial deposit cannot be negative."), init_db).
Proof. vm_compute. reflexivity. Qed.

Example scenario_deposit :
  fst (deposit no_fault (open_accounts init_db [(acc_a, 200%float)]) acc_a
         (Transaction.mk 150))
  = Return (mkAccount 1 acc_a "holder" 350).
Proof. vm_compute. reflexivity. Qed.

Example scenario_withdraw_insufficient :
  let s := open_accounts init_db [(acc_a, 100%float)] in
  withdraw no_fault s acc_a (Transaction.mk 200)
  = (Raise (mkHTTPException 400 "Insufficient funds"), s).
Proof. vm_compute. reflexivity. Qed.

Example scenario_transfer :
  transfer_funds no_fault
    (open_accounts init_db [(acc_a, 1000%float); (acc_b, 500%float)])
    (Transfer.mk acc_a acc_b 200)
  = (Return (mkTransferResponse "Transfer successful" acc_a acc_b 200),
     open_accounts init_db [(acc_a, 800%float); (acc_b, 700%float)]).
Proof. vm_compute. reflexivity. Qed.

Example scenario_sender_missing :
  let s := open_accounts init_db [(acc_b, 500%float)] in
  transfer_funds no_fault s (Transfer.mk acc_a acc_b 200)
  = (Raise (mkHTTPException 404 "Sender account not found."), s).
Proof. vm_compute. reflexivity. Qed.

(** ** Non-negative balances *)

(** C4: in every table reachable from the empty one by any sequence of
    requests (account creation, balance check, deposit, withdraw, transfer,
    with any arguments and under any behaviour of the storage), every account
    satisfies Python's [balance >= 0]. *)
Theorem reachable_balances_nonneg s :
  reachable s -> all_nonneg s.
Proof.
  induction 1 as [|io_fault s r _ IH].
  - apply Forall_nil.
  - apply handle_nonneg. exact IH.
Qed.

Lemma reachable_balances_nonneg_witness :
  reachable
    (handle no_fault
       (handle no_fault init_db (CreateAccount (AccountCreate.mk "holder" 100) acc_a))
       (Withdraw acc_a (Transaction.mk 100))) /\
  all_nonneg
    (handle no_fault
       (handle no_fault init_db (CreateAccount (AccountCreate.mk "holder" 100) acc_a))
       (Withdraw acc_a (Transaction.mk 100))).
Proof.
  split.
  - repeat constructor.
  - apply reachable_balances_nonneg. repeat constructor.
Defined.

(** ** What a request may change *)

Lemma keeps_rows_refl named rs : Forall2 (keeps_row named) rs rs.
Proof.
  induction rs; constructor; [repeat split; auto | assumption].
Qed.

Lemma keeps_rows_trans named rs1 rs2 rs3 :
  Forall2 (keeps_row named) rs1 rs2 -> Forall2 (keeps_row named) rs2 rs3 ->
  Forall2 (keeps_row named) rs1 rs3.
Proof.
  intros H12. revert rs3.
  induction H12 as [|r1 r2 rs1 rs2 K12 _ IH]; intros rs3 H23;
    inversion H23 as [|x r3 y rs3' K23 F23]; subst.
  - constructor.
  - constructor; [|auto].
    destruct K12 as (I1 & N1 & H1 & B1). destruct K23 as (I2 & N2 & H2 & B2).
    repeat split; try congruence.
    intros NI. rewrite B2, B1; [reflexivity|exact NI|congruence].
Qed.

Lemma exec_update_keeps io_fault s n v s' named :
  exec_update io_fault s n v = SqlOk s' -> In n named ->
  Forall2 (keeps_row named) (rows s) (rows s').
Proof.
  intros U I. rewrite (exec_update_ok _ _ _ _ _ U).
  induction (rows s) as [|r rs IH]; simpl; constructor; [|exact IH].
  destruct (String.eqb (account_number r) n) eqn:E.
  - apply String.eqb_eq in E. repeat split. intros NI. subst n. contradiction.
  - repeat split.
Qed.

(** C8: a request changes no [id], [account_number] or [account_holder] of
    an existing row and no balance of a row whose number it does not name;
    only account creation adds rows, at the end of the table. *)
Theorem requests_only_touch_named_balances io_fault s r :
  exists kept added,
    rows (handle io_fault s r) = (kept ++ added)%list /\
    Forall2 (keeps_row (named_numbers r)) (rows s) kept /\
    match r with CreateAccount _ _ => True | _ => added = [] end.
Proof.
  destruct r as [a g|n|n t|n t|t]; simpl.
  - unfold create_account.
    destruct (py_lt _ 0); [exists (rows s), []; rewrite app_nil_r; auto using keeps_rows_refl|].
    destruct (exec_insert io_fault s g _ _) as [[s' i]|e] eqn:I;
      [|exists (rows s), []; rewrite app_nil_r; auto using keeps_rows_refl].
    apply exec_insert_ok in I as (_ & _ & _ & R). simpl.
    exists (rows s), [mkAccount i g (AccountCreate.account_holder a)
                         (AccountCreate.initial_deposit a)].
    auto using keeps_rows_refl.
  - exists (rows s), []. rewrite app_nil_r. auto using keeps_rows_refl.
  - unfold deposit.
    destruct (py_le _ 0); [exists (rows s), []; rewrite app_nil_r; auto using keeps_rows_refl|].
    destruct (get_account_by_number io_fault s n);
      [|exists (rows s), []; rewrite app_nil_r; auto using keeps_rows_refl].
    destruct (exec_update io_fault s n _) as [s'|e] eqn:U;
      [|exists (rows s), []; rewrite app_nil_r; auto using keeps_rows_refl].
    exists (rows s'), []. rewrite app_nil_r. simpl.
    split; [reflexivity|]. split; [|reflexivity].
    eapply exec_update_keeps; [exact U|left; reflexivity].
  - unfold withdraw.
    destruct (py_le _ 0); [exists (rows s), []; rewrite app_nil_r; auto using keeps_rows_refl|].
    destruct (get_account_by_number io_fault s n);
      [|exists (rows s), []; rewrite app_nil_r; auto using keeps_rows_refl].
    destruct (py_lt _ _); [exists (rows s), []; rewrite app_nil_r; auto using keeps_rows_refl|].
    destruct (exec_update io_fault s n _) as [s'|e] eqn:U;
      [|exists (rows s), []; rewrite app_nil_r; auto using keeps_rows_refl].
    exists (rows s'), []. rewrite app_nil_r. simpl.
    split; [reflexivity|]. split; [|reflexivity].
    eapply exec_update_keeps; [exact U|left; reflexivity].
  - unfold transfer_funds.
    assert (Same : exists kept added, rows s = (kept ++ added)%list /\
              Forall2 (keeps_row [Transfer.from_account_number t;
                                  Transfer.to_account_number t]) (rows s) kept /\
              added = []).
    { exists (rows s), []. rewrite app_nil_r. auto using keeps_rows_refl. }
    destruct (String.eqb _ _); [exact Same|].
    destruct (py_le _ 0); [exact Same|].
    destruct (io_fault _ (RSelect _)); [exact Same|].
    destruct (select_by_number (rows s) _) as [fa|]; [|exact Same].
    destruct (py_lt _ _); [exact Same|].
    destruct (io_fault _ (RSelect _)); [exact Same|].
    destruct (select_by_number (rows s) _) as [ta|]; [|exact Same].
    destruct (exec_update io_fault s _ _) as [s1|e] eqn:U1; [|exact Same].
    destruct (exec_update io_fault s1 _ _) as [s2|e] eqn:U2; [|exact Same].
    exists (rows s2), []. rewrite app_nil_r. simpl.
    split; [reflexivity|]. split; [|reflexivity].
    eapply keeps_rows_trans.
    + eapply exec_update_keeps; [exact U1|left; reflexivity].
    + eapply exec_update_keeps; [exact U2|right; left; reflexivity].
Qed.

(** ** Transfers *)

Lemma select_after_update io_fault s n v s' m :
  exec_update io_fault s n v = SqlOk s' ->
  select_by_number (rows s') m =
    if String.eqb m n
    then option_map (fun r => with_balance r v) (select_by_number (rows s) m)
    else select_by_number (rows s) m.
Proof.
  intros U. rewrite (exec_update_ok _ _ _ _ _ U).
  induction (rows s) as [|r rs IH]; simpl.
  - destruct (String.eqb m n); reflexivity.
  - destruct (String.eqb (account_number r) n) eqn:E1; simpl.
    + apply String.eqb_eq in E1. subst n.
      destruct (String.eqb (account_number r) m) eqn:E2.
      * apply String.eqb_eq in E2. subst m. rewrite String.eqb_refl. reflexivity.
      * exact IH.
    + destruct (String.eqb (account_number r) m) eqn:E2; [|exact IH].
      apply String.eqb_eq in E2. subst m. rewrite E1. reflexivity.
Qed.

(** C1 (as amended): a successful transfer between two distinct accounts sets
    the sender's balance to the binary64 value [balance_F - a] and the
    receiver's to [balance_T + a], and leaves every other account as it
    was. *)
Theorem transfer_success_new_balances io_fault s t r s' :
  transfer_funds io_fault s t = (Return r, s') ->
  Transfer.from_account_number t <> Transfer.to_account_number t /\
  exists fa ta,
    select_by_number (rows s) (Transfer.from_account_number t) = Some fa /\
    select_by_number (rows s) (Transfer.to_account_number t) = Some ta /\
    select_by_number (rows s') (Transfer.from_account_number t)
      = Some (with_balance fa (balance fa - Transfer.amount t)%float) /\
    select_by_number (rows s') (Transfer.to_account_number t)
      = Some (with_balance ta (balance ta + Transfer.amount t)%float) /\
    (forall m, m <> Transfer.from_account_number t ->
               m <> Transfer.to_account_number t ->
               select_by_number (rows s') m = select_by_number (rows s) m).
Proof.
  unfold transfer_funds.
  set (f := Transfer.from_account_number t). set (g := Transfer.to_account_number t).
  destruct (String.eqb f g) eqn:E; [discriminate|].
  apply String.eqb_neq in E.
  destruct (py_le _ 0); [discriminate|].
  destruct (io_fault _ (RSelect f)); [discriminate|].
  destruct (select_by_number (rows s) f) as [fa|] eqn:F; [|discriminate].
  destruct (py_lt _ _); [discriminate|].
  destruct (io_fault _ (RSelect g)); [discriminate|].
  destruct (select_by_number (rows s) g) as [ta|] eqn:T; [|discriminate].
  destruct (exec_update io_fault s f _) as [s1|e] eqn:U1; [|discriminate].
  destruct (exec_update io_fault s1 g _) as [s2|e] eqn:U2; [|discriminate].
  injection 1 as _ <-.
  split; [exact E|]. exists fa, ta. split; [reflexivity|]. split; [reflexivity|].
  assert (Neq : String.eqb f g = false) by (apply String.eqb_neq; exact E).
  assert (Nqe : String.eqb g f = false)
    by (apply String.eqb_neq; intros H; apply E; symmetry; exact H).
  split; [|split].
  - rewrite (select_after_update _ _ _ _ _ f U2), Neq.
    rewrite (select_after_update _ _ _ _ _ f U1), String.eqb_refl, F. reflexivity.
  - rewrite (select_after_update _ _ _ _ _ g U2), String.eqb_refl.
    rewrite (select_after_update _ _ _ _ _ g U1), Nqe, T. reflexivity.
  - intros m Hf Hg.
    rewrite (select_after_update _ _ _ _ _ m U2), (select_after_update _ _ _ _ _ m U1).
    apply String.eqb_neq in Hf, Hg. rewrite Hf, Hg. reflexivity.
Qed.

Lemma transfer_success_new_balances_witness :
  Transfer.from_account_number (Transfer.mk acc_a acc_b 200) <>
    Transfer.to_account_number (Transfer.mk acc_a acc_b 200) /\
  exists fa ta,
    select_by_number (rows (open_accounts init_db [(acc_a, 1000%float); (acc_b, 500%float)]))
      acc_a = Some fa /\
    select_by_number (rows (open_accounts init_db [(acc_a, 1000%float); (acc_b, 500%float)]))
      acc_b = Some ta /\
    select_by_number (rows (snd (transfer_funds no_fault
        (open_accounts init_db [(acc_a, 1000%float); (acc_b, 500%float)])
        (Transfer.mk acc_a acc_b 200)))) acc_a
      = Some (with_balance fa (balance fa - 200)%float) /\
    select_by_number (rows (snd (transfer_funds no_fault
        (open_accounts init_db [(acc_a, 1000%float); (acc_b, 500%float)])
        (Transfer.mk acc_a acc_b 200)))) acc_b
      = Some (with_balance ta (balance ta + 200)%float) /\
    (forall m, m <> acc_a -> m <> acc_b ->
       select_by_number (rows (snd (transfer_funds no_fault
          (open_accounts init_db [(acc_a, 1000%float); (acc_b, 500%float)])
          (Transfer.mk acc_a acc_b 200)))) m
       = select_by_number
           (rows (open_accounts init_db [(acc_a, 1000%float); (acc_b, 500%float)])) m).
Proof.
  apply (transfer_success_new_balances no_fault
           (open_accounts init_db [(acc_a, 1000%float); (acc_b, 500%float)])
           (Transfer.mk acc_a acc_b 200)
           (mkTransferResponse "Transfer successful" acc_a acc_b 200)).
  vm_compute. reflexivity.
Defined.

(** The exact values behind [transfer_sum_not_conserved]: 2 units leave the
    sender and none arrive, since [2^53 + 1] rounds to [2^53]. *)
Example transfer_rounding_values :
  let s := open_accounts init_db [(acc_a, 2%float); (acc_b, 0x1p53%float)] in
  transfer_funds no_fault s (Transfer.mk acc_a acc_b 1)
  = (Return (mkTransferResponse "Transfer successful" acc_a acc_b 1),
     open_accounts init_db [(acc_a, 1%float); (acc_b, 0x1p53%float)]).
Proof. vm_compute. reflexivity. Qed.

(** C1 (counterexample): the sum of the two balances is not conserved, even
    compared in floating point: sender 2, receiver 2^53, amount 1. *)
Lemma transfer_sum_not_conserved :
  ~ (forall io_fault s t r s' fa ta fa' ta',
       transfer_funds io_fault s t = (Return r, s') ->
       Transfer.from_account_number t <> Transfer.to_account_number t ->
       select_by_number (rows s) (Transfer.from_account_number t) = Some fa ->
       select_by_number (rows s) (Transfer.to_account_number t) = Some ta ->
       select_by_number (rows s') (Transfer.from_account_number t) = Some fa' ->
       select_by_number (rows s') (Transfer.to_account_number t) = Some ta' ->
       (balance fa' + balance ta' =? balance fa + balance ta)%float = true).
Proof.
  intros H.
  specialize (H no_fault (open_accounts init_db [(acc_a, 2%float); (acc_b, 0x1p53%float)])
                (Transfer.mk acc_a acc_b 1)
                (mkTransferResponse "Transfer successful" acc_a acc_b 1)
                (open_accounts init_db [(acc_a, 1%float); (acc_b, 0x1p53%float)])
                (mkAccount 1 acc_a "holder" 2) (mkAccount 2 acc_b "holder" 0x1p53)
                (mkAccount 1 acc_a "holder" 1) (mkAccount 2 acc_b "holder" 0x1p53)).
  assert (D : acc_a <> acc_b) by discriminate.
  specialize (H ltac:(vm_compute; reflexivity) D ltac:(vm_compute; reflexivity)
                ltac:(vm_compute; reflexivity) ltac:(vm_compute; reflexivity)
                ltac:(vm_compute; reflexivity)).
  vm_compute in H. discriminate H.
Qed.

(** Python's comparisons against [0] of a value that is or is not a number. *)

Lemma SFeqb_refl x : x <> S754_nan -> SFeqb x x = true.
Proof.
  intros N. destruct x as [[]|[]| |[] m e]; try reflexivity; [congruence| |];
    unfold SFeqb, SFcompare; rewrite Z.compare_refl, Pos.compare_cont_refl; reflexivity.
Qed.

Lemma null_is_nan x : binds_as_null x = true -> Prim2SF x = S754_nan.
Proof.
  unfold binds_as_null. rewrite eqb_spec.
  destruct (Prim2SF x) eqn:E; try reflexivity;
    rewrite SFeqb_refl by discriminate; discriminate.
Qed.

Lemma nan_is_null x : Prim2SF x = S754_nan -> binds_as_null x = true.
Proof. intros H. unfold binds_as_null. rewrite eqb_spec, H. reflexivity. Qed.

Lemma pos_not_le_zero x : py_lt 0 x = true -> py_le x 0 = false.
Proof.
  unfold py_lt, py_le. rewrite ltb_spec, leb_spec, FloatFacts.Prim2SF_zero.
  destruct (Prim2SF x) as [[]|[]| |[] m e]; unfold SFltb, SFleb, SFcompare;
    cbn; congruence.
Qed.

Lemma not_pos_le_zero x :
  binds_as_null x = false -> py_lt 0 x = false -> py_le x 0 = true.
Proof.
  intros Nn. pose proof (FloatFacts.not_null_not_nan _ Nn) as N.
  unfold py_lt, py_le. rewrite ltb_spec, leb_spec, FloatFacts.Prim2SF_zero.
  destruct (Prim2SF x) as [[]|[]| |[] m e]; unfold SFltb, SFleb, SFcompare;
    cbn; congruence.
Qed.

Lemma nan_le_false x y : Prim2SF x = S754_nan -> py_le x y = false.
Proof. intros H. unfold py_le. rewrite leb_spec, H. reflexivity. Qed.

Lemma lt_nan_false x y : Prim2SF y = S754_nan -> py_lt x y = false.
Proof.
  intros H. unfold py_lt. rewrite ltb_spec, H.
  destruct (Prim2SF x) as [[]|[]| |[] m e]; reflexivity.
Qed.

Lemma sub_nan_null x y : Prim2SF y = S754_nan -> binds_as_null (x - y)%float = true.
Proof.
  intros H. apply nan_is_null. rewrite sub_spec, H.
  destruct (Prim2SF x) as [[]|[]| |[] m e]; reflexivity.
Qed.

(** C2 (failing input): a transfer that fails raises, and then the table is
    the one it started from, whatever the failure (a check, a read or a
    write refused by the storage): no debit is ever left without its credit.
    Each failed precondition, checked in the code's order, raises its own
    error: same account; an amount that is a number and not [> 0]; sender
    missing (its [SELECT] succeeding); sender balance [<] amount; receiver
    missing.  The exception is a NaN amount: it is not [> 0], yet it passes
    the check [amount <= 0], and the transfer raises some other error (a
    500 or a 404), never the amount error. *)
Theorem transfer_all_or_nothing io_fault s t :
  (forall e s', transfer_funds io_fault s t = (Raise e, s') -> s' = s) /\
  (Transfer.from_account_number t = Transfer.to_account_number t ->
     transfer_funds io_fault s t
     = (Raise (mkHTTPException 400 "Cannot transfer funds to the same account."), s)) /\
  (Transfer.from_account_number t <> Transfer.to_account_number t ->
   binds_as_null (Transfer.amount t) = false -> py_lt 0 (Transfer.amount t) = false ->
     transfer_funds io_fault s t
     = (Raise (mkHTTPException 400 "Transfer amount must be positive."), s)) /\
  (Transfer.from_account_number t <> Transfer.to_account_number t ->
   py_lt 0 (Transfer.amount t) = true ->
   io_fault (rows s) (RSelect (Transfer.from_account_number t)) = None ->
   select_by_number (rows s) (Transfer.from_account_number t) = None ->
     transfer_funds io_fault s t
     = (Raise (mkHTTPException 404 "Sender account not found."), s)) /\
  (forall fa,
   Transfer.from_account_number t <> Transfer.to_account_number t ->
   py_lt 0 (Transfer.amount t) = true ->
   io_fault (rows s) (RSelect (Transfer.from_account_number t)) = None ->
   select_by_number (rows s) (Transfer.from_account_number t) = Some fa ->
   py_lt (balance fa) (Transfer.amount t) = true ->
     transfer_funds io_fault s t
     = (Raise (mkHTTPException 400 "Insufficient funds in sender account."), s)) /\
  (forall fa,
   Transfer.from_account_number t <> Transfer.to_account_number t ->
   py_lt 0 (Transfer.amount t) = true ->
   io_fault (rows s) (RSelect (Transfer.from_account_number t)) = None ->
   select_by_number (rows s) (Transfer.from_account_number t) = Some fa ->
   py_lt (balance fa) (Transfer.amount t) = false ->
   io_fault (rows s) (RSelect (Transfer.to_account_number t)) = None ->
   select_by_number (rows s) (Transfer.to_account_number t) = None ->
     transfer_funds io_fault s t
     = (Raise (mkHTTPException 404 "Receiver account not found."), s)) /\
  (Transfer.from_account_number t <> Transfer.to_account_number t ->
   binds_as_null (Transfer.amount t) = true ->
     exists e, transfer_funds io_fault s t = (Raise e, s) /\
               e <> mkHTTPException 400 "Transfer amount must be positive.").
Proof.
  unfold transfer_funds. cbv zeta.
  set (f := Transfer.from_account_number t). set (g := Transfer.to_account_number t).
  split; [|split; [|split; [|split; [|split; [|split]]]]].
  - intros e s'.
    destruct (String.eqb f g); [congruence|].
    destruct (py_le _ 0); [congruence|].
    destruct (io_fault _ (RSelect f)); [congruence|].
    destruct (select_by_number (rows s) f) as [fa|]; [|congruence].
    destruct (py_lt _ _); [congruence|].
    destruct (io_fault _ (RSelect g)); [congruence|].
    destruct (select_by_number (rows s) g) as [ta|]; [|congruence].
    destruct (exec_update io_fault s f _) as [s1|e1]; [|congruence].
    destruct (exec_update io_fault s1 g _) as [s2|e2]; congruence.
  - intros E. rewrite (proj2 (String.eqb_eq f g) E). reflexivity.
  - intros E Nn Lt.
    rewrite (proj2 (String.eqb_neq f g) E), (not_pos_le_zero _ Nn Lt). reflexivity.
  - intros E Lt R F.
    rewrite (proj2 (String.eqb_neq f g) E), (pos_not_le_zero _ Lt), R, F. reflexivity.
  - intros fa E Lt R F Lt'.
    rewrite (proj2 (String.eqb_neq f g) E), (pos_not_le_zero _ Lt), R, F, Lt'.
    reflexivity.
  - intros fa E Lt R F Lt' R' T.
    rewrite (proj2 (String.eqb_neq f g) E), (pos_not_le_zero _ Lt), R, F, Lt', R', T.
    reflexivity.
  - intros E Nn. pose proof (null_is_nan _ Nn) as Hnan.
    rewrite (proj2 (String.eqb_neq f g) E), (nan_le_false _ 0 Hnan).
    destruct (io_fault _ (RSelect f)).
    { eexists. split; [reflexivity|congruence]. }
    destruct (select_by_number (rows s) f) as [fa|].
    2:{ eexists. split; [reflexivity|congruence]. }
    rewrite (lt_nan_false (balance fa) _ Hnan).
    destruct (io_fault _ (RSelect g)).
    { eexists. split; [reflexivity|congruence]. }
    destruct (select_by_number (rows s) g) as [ta|].
    2:{ eexists. split; [reflexivity|congruence]. }
    unfold exec_update at 1. rewrite (sub_nan_null (balance fa) _ Hnan).
    eexists. split; [reflexivity|congruence].
Qed.

(** ** Deposit and withdraw: the amount check comes first *)

(** C10: for every amount [<= 0] and every account number, existing or not,
    [deposit] and [withdraw] raise a 400 error whose detail contains
    "must be positive", the same error whatever the table holds, and leave
    the table unchanged. *)
Theorem nonpositive_amount_checked_first io_fault n t :
  py_le (Transaction.amount t) 0 = true ->
  exists e_deposit e_withdraw,
    status_code e_deposit = 400%Z /\
    contains "must be positive" (detail e_deposit) = true /\
    status_code e_withdraw = 400%Z /\
    contains "must be positive" (detail e_withdraw) = true /\
    forall s, deposit io_fault s n t = (Raise e_deposit, s) /\
              withdraw io_fault s n t = (Raise e_withdraw, s).
Proof.
  intros Le.
  exists (mkHTTPException 400 "Deposit amount must be positive."),
         (mkHTTPException 400 "Withdrawal amount must be positive.").
  split; [reflexivity|]. split; [vm_compute; reflexivity|].
  split; [reflexivity|]. split; [vm_compute; reflexivity|].
  intros s. unfold deposit, withdraw. rewrite Le. split; reflexivity.
Qed.

Lemma nonpositive_amount_checked_first_witness :
  exists e_deposit e_withdraw,
    status_code e_deposit = 400%Z /\
    contains "must be positive" (detail e_deposit) = true /\
    status_code e_withdraw = 400%Z /\
    contains "must be positive" (detail e_withdraw) = true /\
    forall s, deposit no_fault s "9999999999" (Transaction.mk (-5)) = (Raise e_deposit, s) /\
              withdraw no_fault s "9999999999" (Transaction.mk (-5)) = (Raise e_withdraw, s).
Proof.
  apply (nonpositive_amount_checked_first no_fault "9999999999" (Transaction.mk (-5))).
  vm_compute. reflexivity.
Defined.

(** C3 (failing input): a NaN amount is not [> 0], yet it passes the check
    [amount <= 0]; the transfer then fails at the first [UPDATE] with a 500
    error instead of the 400 amount error, and when the sender is missing it
    fails with the sender's 404 error. *)
Theorem transfer_nan_amount_skips_amount_check :
  py_lt 0 nan = false /\
  transfer_funds no_fault (open_accounts init_db [(acc_a, 100%float); (acc_b, 0%float)])
    (Transfer.mk acc_a acc_b nan)
  = (Raise (mkHTTPException 500
              "An internal error occurred during the transfer: NOT NULL constraint failed: accounts.balance"),
     open_accounts init_db [(acc_a, 100%float); (acc_b, 0%float)]) /\
  transfer_funds no_fault (open_accounts init_db [(acc_b, 0%float)])
    (Transfer.mk acc_a acc_b nan)
  = (Raise (mkHTTPException 404 "Sender account not found."),
     open_accounts init_db [(acc_b, 0%float)]).
Proof. vm_compute. repeat split. Qed.

(** ** Withdraw *)

(** An infinite balance is reachable: [2^1023 + 2^1023] overflows. *)
Example infinite_balance_reachable :
  deposit no_fault (open_accounts init_db [(acc_a, 0x1p1023%float)]) acc_a
    (Transaction.mk 0x1p1023)
  = (Return (mkAccount 1 acc_a "holder" infinity),
     open_accounts init_db [(acc_a, infinity)]).
Proof. vm_compute. reflexivity. Qed.

(** C5 (counterexample): withdrawing an infinite amount from an infinite
    balance passes both checks, but [inf - inf] is NaN, which the store
    refuses: the call raises a 500 error instead of returning the account. *)
Lemma withdraw_inf_from_inf_not_persisted :
  ~ (forall io_fault s n t a,
       py_le (Transaction.amount t) 0 = false ->
       select_by_number (rows s) n = Some a ->
       py_lt (balance a) (Transaction.amount t) = false ->
       exists s', withdraw io_fault s n t
                  = (Return (with_balance a (balance a - Transaction.amount t)%float), s')).
Proof.
  intros H.
  destruct (H no_fault (open_accounts init_db [(acc_a, infinity)]) acc_a
              (Transaction.mk infinity) (mkAccount 1 acc_a "holder" infinity)
              ltac:(vm_compute; reflexivity) ltac:(vm_compute; reflexivity)
              ltac:(vm_compute; reflexivity)) as [s' E].
  vm_compute in E. discriminate E.
Qed.

(** C5 (as amended): for every amount that is a number (not NaN):
    an amount [<= 0] gives the 400 "must be positive" error; a storage error
    on reading the account gives 500 "Database error: ..."; an unknown
    account gives 404; [balance < amount] gives 400 "Insufficient funds";
    otherwise [newBalance = balance - amount] (binary64) is written, and the
    call returns the account with that balance, persisted and with every
    other account unchanged, when the store accepts the write, or raises a
    500 error when the store refuses it (a NaN [newBalance], as for an
    infinite amount on an infinite balance, or a storage error).  Every
    raise leaves the table unchanged. *)
Theorem withdraw_outcomes io_fault s n t :
  binds_as_null (Transaction.amount t) = false ->
  (py_le (Transaction.amount t) 0 = true ->
     withdraw io_fault s n t
     = (Raise (mkHTTPException 400 "Withdrawal amount must be positive."), s)) /\
  (forall e, py_le (Transaction.amount t) 0 = false ->
     io_fault (rows s) (RSelect n) = Some e ->
     withdraw io_fault s n t
     = (Raise (mkHTTPException 500 ("Database error: " ++ sqlite_error_msg e)), s)) /\
  (py_le (Transaction.amount t) 0 = false -> io_fault (rows s) (RSelect n) = None ->
     select_by_number (rows s) n = None ->
     withdraw io_fault s n t = (Raise (mkHTTPException 404 "Account not found"), s)) /\
  (forall a, py_le (Transaction.amount t) 0 = false -> io_fault (rows s) (RSelect n) = None ->
     select_by_number (rows s) n = Some a ->
     py_lt (balance a) (Transaction.amount t) = true ->
     withdraw io_fault s n t = (Raise (mkHTTPException 400 "Insufficient funds"), s)) /\
  (forall a, py_le (Transaction.amount t) 0 = false -> io_fault (rows s) (RSelect n) = None ->
     select_by_number (rows s) n = Some a ->
     py_lt (balance a) (Transaction.amount t) = false ->
     (binds_as_null (balance a - Transaction.amount t)%float = false ->
      io_fault (rows s) (WUpdate n (balance a - Transaction.amount t)%float) = None ->
      exists s',
        withdraw io_fault s n t
        = (Return (with_balance a (balance a - Transaction.amount t)%float), s') /\
        select_by_number (rows s') n
        = Some (with_balance a (balance a - Transaction.amount t)%float) /\
        (forall m, m <> n -> select_by_number (rows s') m = select_by_number (rows s) m)) /\
     (binds_as_null (balance a - Transaction.amount t)%float = true \/
      io_fault (rows s) (WUpdate n (balance a - Transaction.amount t)%float) <> None ->
      exists e, status_code e = 500%Z /\ withdraw io_fault s n t = (Raise e, s))).
Proof.
  intros _. unfold withdraw, get_account_by_number.
  split; [intros Le; rewrite Le; reflexivity|].
  split; [intros e Le R; rewrite Le, R; reflexivity|].
  split; [intros Le R N; rewrite Le, R, N; reflexivity|].
  split; [intros a Le R F Lt; rewrite Le, R, F, Lt; reflexivity|].
  intros a Le R F Lt. rewrite Le, R, F, Lt. split.
  - intros Nn Nf.
    assert (U : exec_update io_fault s n (balance a - Transaction.amount t)%float
                = SqlOk (mkStore (map (fun r => if String.eqb (account_number r) n
                    then with_balance r (balance a - Transaction.amount t)%float else r)
                    (rows s)) (seq s))).
    { unfold exec_update. rewrite Nn, Nf. reflexivity. }
    rewrite U. eexists. split; [reflexivity|]. split.
    + rewrite (select_after_update _ _ _ _ _ n U), String.eqb_refl, F. reflexivity.
    + intros m Hm. rewrite (select_after_update _ _ _ _ _ m U).
      apply String.eqb_neq in Hm. rewrite Hm. reflexivity.
  - intros Bad. unfold exec_update.
    destruct (binds_as_null _) eqn:Nn.
    + eexists. split; [|reflexivity]. reflexivity.
    + destruct Bad as [Bad|Bad]; [discriminate|].
      destruct (io_fault _ (WUpdate _ _)) as [e|]; [|congruence].
      eexists. split; [|reflexivity]. reflexivity.
Qed.

Lemma withdraw_outcomes_witness :
  binds_as_null 30 = false /\
  (forall a, py_le 30 0 = false ->
     no_fault (rows (open_accounts init_db [(acc_a, 100%float)])) (RSelect acc_a) = None ->
     select_by_number (rows (open_accounts init_db [(acc_a, 100%float)])) acc_a = Some a ->
     py_lt (balance a) 30 = false ->
     (binds_as_null (balance a - 30)%float = false ->
      no_fault (rows (open_accounts init_db [(acc_a, 100%float)]))
        (WUpdate acc_a (balance a - 30)%float) = None ->
      exists s',
        withdraw no_fault (open_accounts init_db [(acc_a, 100%float)]) acc_a
          (Transaction.mk 30)
        = (Return (with_balance a (balance a - 30)%float), s') /\
        select_by_number (rows s') acc_a = Some (with_balance a (balance a - 30)%float) /\
        (forall m, m <> acc_a -> select_by_number (rows s') m
           = select_by_number (rows (open_accounts init_db [(acc_a, 100%float)])) m)) /\
     (binds_as_null (balance a - 30)%float = true \/
      no_fault (rows (open_accounts init_db [(acc_a, 100%float)]))
        (WUpdate acc_a (balance a - 30)%float) <> None ->
      exists e, status_code e = 500%Z /\
        withdraw no_fault (open_accounts init_db [(acc_a, 100%float)]) acc_a
          (Transaction.mk 30)
        = (Raise e, open_accounts init_db [(acc_a, 100%float)]))).
Proof.
  split; [vm_compute; reflexivity|].
  apply (withdraw_outcomes no_fault (open_accounts init_db [(acc_a, 100%float)]) acc_a
           (Transaction.mk 30)).
  vm_compute. reflexivity.
Defined.

(** ** Deposit *)

(** C6 (counterexample): with an existing account and a positive amount, a
    deposit whose [UPDATE] fails in the storage is not persisted: the call
    raises a 500 error and the table keeps the old balance. *)
Lemma deposit_storage_error_not_persisted :
  ~ (forall io_fault s n t a,
       py_le (Transaction.amount t) 0 = false ->
       select_by_number (rows s) n = Some a ->
       exists s', deposit io_fault s n t
                  = (Return (with_balance a (balance a + Transaction.amount t)%float), s')).
Proof.
  intros H.
  destruct (H disk_full (open_accounts init_db [(acc_a, 200%float)]) acc_a
              (Transaction.mk 150) (mkAccount 1 acc_a "holder" 200)
              ltac:(vm_compute; reflexivity) ltac:(vm_compute; reflexivity)) as [s' E].
  vm_compute in E. discriminate E.
Qed.

(** C6 (as amended): for every amount that is a number (not NaN): an amount
    [<= 0] gives the 400 "must be positive" error; a storage error on
    reading the account gives 500 "Database error: ..."; an unknown account
    gives 404; otherwise [newBalance = balance + amount] (binary64) is written, and
    the call returns the account with that balance and all other fields as
    stored, persisted and with every other account unchanged, when the store
    accepts the write, or raises a 500 error with the table unchanged when
    the store refuses it. *)
Theorem deposit_outcomes io_fault s n t :
  binds_as_null (Transaction.amount t) = false ->
  (py_le (Transaction.amount t) 0 = true ->
     deposit io_fault s n t
     = (Raise (mkHTTPException 400 "Deposit amount must be positive."), s)) /\
  (forall e, py_le (Transaction.amount t) 0 = false ->
     io_fault (rows s) (RSelect n) = Some e ->
     deposit io_fault s n t
     = (Raise (mkHTTPException 500 ("Database error: " ++ sqlite_error_msg e)), s)) /\
  (py_le (Transaction.amount t) 0 = false -> io_fault (rows s) (RSelect n) = None ->
     select_by_number (rows s) n = None ->
     deposit io_fault s n t = (Raise (mkHTTPException 404 "Account not found"), s)) /\
  (forall a, py_le (Transaction.amount t) 0 = false -> io_fault (rows s) (RSelect n) = None ->
     select_by_number (rows s) n = Some a ->
     (binds_as_null (balance a + Transaction.amount t)%float = false ->
      io_fault (rows s) (WUpdate n (balance a + Transaction.amount t)%float) = None ->
      exists s',
        deposit io_fault s n t
        = (Return (mkAccount (id a) (account_number a) (account_holder a)
                     (balance a + Transaction.amount t)%float), s') /\
        select_by_number (rows s') n
        = Some (with_balance a (balance a + Transaction.amount t)%float) /\
        (forall m, m <> n -> select_by_number (rows s') m = select_by_number (rows s) m)) /\
     (binds_as_null (balance a + Transaction.amount t)%float = true \/
      io_fault (rows s) (WUpdate n (balance a + Transaction.amount t)%float) <> None ->
      exists e, status_code e = 500%Z /\ deposit io_fault s n t = (Raise e, s))).
Proof.
  intros _. unfold deposit, get_account_by_number.
  split; [intros Le; rewrite Le; reflexivity|].
  split; [intros e Le R; rewrite Le, R; reflexivity|].
  split; [intros Le R N; rewrite Le, R, N; reflexivity|].
  intros a Le R F. rewrite Le, R, F. split.
  - intros Nn Nf.
    assert (U : exec_update io_fault s n (balance a + Transaction.amount t)%float
                = SqlOk (mkStore (map (fun r => if String.eqb (account_number r) n
                    then with_balance r (balance a + Transaction.amount t)%float else r)
                    (rows s)) (seq s))).
    { unfold exec_update. rewrite Nn, Nf. reflexivity. }
    rewrite U. eexists. split; [reflexivity|]. split.
    + rewrite (select_after_update _ _ _ _ _ n U), String.eqb_refl, F. reflexivity.
    + intros m Hm. rewrite (select_after_update _ _ _ _ _ m U).
      apply String.eqb_neq in Hm. rewrite Hm. reflexivity.
  - intros Bad. unfold exec_update.
    destruct (binds_as_null _) eqn:Nn.
    + eexists. split; [|reflexivity]. reflexivity.
    + destruct Bad as [Bad|Bad]; [discriminate|].
      destruct (io_fault _ (WUpdate _ _)) as [e|]; [|congruence].
      eexists. split; [|reflexivity]. reflexivity.
Qed.

Lemma deposit_outcomes_witness :
  binds_as_null 150 = false /\
  (forall a, py_le 150 0 = false ->
     no_fault (rows (open_accounts init_db [(acc_a, 200%float)])) (RSelect acc_a) = None ->
     select_by_number (rows (open_accounts init_db [(acc_a, 200%float)])) acc_a = Some a ->
     (binds_as_null (balance a + 150)%float = false ->
      no_fault (rows (open_accounts init_db [(acc_a, 200%float)]))
        (WUpdate acc_a (balance a + 150)%float) = None ->
      exists s',
        deposit no_fault (open_accounts init_db [(acc_a, 200%float)]) acc_a
          (Transaction.mk 150)
        = (Return (mkAccount (id a) (account_number a) (account_holder a)
                     (balance a + 150)%float), s') /\
        select_by_number (rows s') acc_a = Some (with_balance a (balance a + 150)%float) /\
        (forall m, m <> acc_a -> select_by_number (rows s') m
           = select_by_number (rows (open_accounts init_db [(acc_a, 200%float)])) m)) /\
     (binds_as_null (balance a + 150)%float = true \/
      no_fault (rows (open_accounts init_db [(acc_a, 200%float)]))
        (WUpdate acc_a (balance a + 150)%float) <> None ->
      exists e, status_code e = 500%Z /\
        deposit no_fault (open_accounts init_db [(acc_a, 200%float)]) acc_a
          (Transaction.mk 150)
        = (Raise e, open_accounts init_db [(acc_a, 200%float)]))).
Proof.
  split; [vm_compute; reflexivity|].
  apply (deposit_outcomes no_fault (open_accounts init_db [(acc_a, 200%float)]) acc_a
           (Transaction.mk 150)).
  vm_compute. reflexivity.
Defined.

(** ** Account creation *)




(** ** Transaction boundaries of a transfer *)

(** Splitting [transfer_funds] after its reads is faithful: run back to back,
    [transfer_reads] and [transfer_writes] are [transfer_funds]. *)
Lemma transfer_funds_split io_fault s t :
  transfer_funds io_fault s t =
  match Sqlite3Driver.transfer_reads io_fault s t with
  | Raise e => (Raise e, s)
  | Return nb => Sqlite3Driver.transfer_writes io_fault s t nb
  end.
Proof.
  unfold transfer_funds, Sqlite3Driver.transfer_reads, Sqlite3Driver.transfer_writes.
  destruct (String.eqb _ _); [reflexivity|].
  destruct (py_le _ 0); [reflexivity|].
  destruct (io_fault _ (RSelect _)); [reflexivity|].
  destruct (select_by_number (rows s) _) as [fa|]; [|reflexivity].
  destruct (py_lt _ _); [reflexivity|].
  destruct (io_fault _ (RSelect _)); [reflexivity|].
  destruct (select_by_number (rows s) _) as [ta|]; reflexivity.
Qed.

(** For every table and request, each [SELECT] of [transfer_funds] runs with
    no transaction open: the driver opens one only at the first [UPDATE]. *)
Lemma transfer_selects_in_autocommit io_fault s t n inside :
  In (Sqlite3Driver.Select n, inside)
     (Sqlite3Driver.annotate false (Sqlite3Driver.transfer_statements io_fault s t)) ->
  inside = false.
Proof.
  unfold Sqlite3Driver.transfer_statements.
  destruct (String.eqb _ _); [simpl; tauto|].
  destruct (py_le _ 0); [simpl; tauto|].
  destruct (io_fault _ (RSelect _)); [simpl; intros [H|[H|[]]]; congruence|].
  destruct (select_by_number (rows s) _) as [fa|];
    [|simpl; intros [H|[H|[]]]; congruence].
  destruct (py_lt _ _); [simpl; intros [H|[H|[]]]; congruence|].
  destruct (io_fault _ (RSelect _)); [simpl; intros [H|[H|[H|[]]]]; congruence|].
  destruct (select_by_number (rows s) _) as [ta|];
    [|simpl; intros [H|[H|[H|[]]]]; congruence].
  destruct (exec_update io_fault s _ _) as [s1|e];
    [|simpl; intros [H|[H|[H|[H|[]]]]]; congruence].
  destruct (exec_update io_fault s1 _ _) as [s2|e];
    simpl; intros [H|[H|[H|[H|[H|[]]]]]]; congruence.
Qed.

(** C9 (failing input): accounts A = 100, B = 0, C = 0; concurrent transfers
    A->B and A->C of 100 each.  The reads of the first one run outside any
    transaction (its only transaction starts at its first [UPDATE]), so the
    second may run to completion between its reads and its writes: both
    succeed, A ends at 0 and B and C at 100, 100 units are created, whereas
    run one after the other the second transfer is refused. *)
Theorem concurrent_transfers_lost_update :
  Sqlite3Driver.annotate false
    (Sqlite3Driver.transfer_statements no_fault
       (open_accounts init_db [(acc_a, 100%float); (acc_b, 0%float); (acc_c, 0%float)])
       (Transfer.mk acc_a acc_b 100))
  = [(Sqlite3Driver.Select acc_a, false); (Sqlite3Driver.Select acc_b, false);
     (Sqlite3Driver.Update acc_a 0, true); (Sqlite3Driver.Update acc_b 100, true);
     (Sqlite3Driver.Commit, true)] /\
  Sqlite3Driver.transfers_interleaved no_fault
    (open_accounts init_db [(acc_a, 100%float); (acc_b, 0%float); (acc_c, 0%float)])
    (Transfer.mk acc_a acc_b 100) (Transfer.mk acc_a acc_c 100)
  = (Return (mkTransferResponse "Transfer successful" acc_a acc_b 100),
     Return (mkTransferResponse "Transfer successful" acc_a acc_c 100),
     open_accounts init_db [(acc_a, 0%float); (acc_b, 100%float); (acc_c, 100%float)]) /\
  fst (transfer_funds no_fault
         (snd (transfer_funds no_fault
                 (open_accounts init_db
                    [(acc_a, 100%float); (acc_b, 0%float); (acc_c, 0%float)])
                 (Transfer.mk acc_a acc_c 100)))
         (Transfer.mk acc_a acc_b 100))
  = Raise (mkHTTPException 400 "Insufficient funds in sender account.").
Proof. vm_compute. repeat split. Qed.

(** * Further properties of the code *)

(** ** Lookups after an insert *)




(** ** Shape of the table across requests *)

Definition row_key (a : Account) : Z * string := (id a, account_number a).

Lemma exec_update_shape io_fault s n v s' :
  exec_update io_fault s n v = SqlOk s' ->
  map row_key (rows s') = map row_key (rows s) /\ seq s' = seq s.
Proof.
  intros U. split.
  - rewrite (exec_update_ok _ _ _ _ _ U), map_map. apply map_ext.
    intros r. destruct (String.eqb (account_number r) n); reflexivity.
  - revert U. unfold exec_update. destruct (binds_as_null v); [discriminate|].
    destruct (io_fault _ _); [discriminate|]. injection 1 as <-. reflexivity.
Qed.

Lemma exec_insert_seq io_fault s n h v s' i :
  exec_insert io_fault s n h v = SqlOk (s', i) -> seq s' = i.
Proof.
  unfold exec_insert. destruct (binds_as_null v); [discriminate|].
  destruct (select_by_number (rows s) n); [discriminate|].
  destruct (io_fault _ _); [discriminate|]. injection 1 as <- <-. reflexivity.
Qed.

(** One request either keeps the ids and numbers of the rows and the
    counter, or appends one row with a fresh number and the id [seq + 1]. *)
Lemma handle_shape io_fault s r :
  (map row_key (rows (handle io_fault s r)) = map row_key (rows s) /\
   seq (handle io_fault s r) = seq s) \/
  (exists n h v, select_by_number (rows s) n = None /\
     rows (handle io_fault s r) = (rows s ++ [mkAccount (seq s + 1) n h v])%list /\
     seq (handle io_fault s r) = (seq s + 1)%Z).
Proof.
  destruct r as [a g|n|n t|n t|t]; simpl.
  - unfold create_account.
    destruct (py_lt (AccountCreate.initial_deposit a) 0); [left; auto|].
    destruct (exec_insert io_fault s g _ _) as [[s' i]|e] eqn:I; [|left; auto].
    right. simpl. pose proof (exec_insert_seq _ _ _ _ _ _ _ I) as Hs.
    apply exec_insert_ok in I as (_ & Hn & -> & R). eauto 6.
  - left. auto.
  - unfold deposit.
    destruct (py_le (Transaction.amount t) 0); [left; auto|].
    destruct (get_account_by_number io_fault s n); [|left; auto].
    destruct (exec_update io_fault s n _) as [s'|e] eqn:U; [|left; auto].
    left. exact (exec_update_shape _ _ _ _ _ U).
  - unfold withdraw.
    destruct (py_le (Transaction.amount t) 0); [left; auto|].
    destruct (get_account_by_number io_fault s n) as [acc|]; [|left; auto].
    destruct (py_lt (balance acc) _); [left; auto|].
    destruct (exec_update io_fault s n _) as [s'|e] eqn:U; [|left; auto].
    left. exact (exec_update_shape _ _ _ _ _ U).
  - unfold transfer_funds.
    destruct (String.eqb _ _); [left; auto|].
    destruct (py_le (Transfer.amount t) 0); [left; auto|].
    destruct (io_fault _ (RSelect _)); [left; auto|].
    destruct (select_by_number (rows s) _) as [fa|]; [|left; auto].
    destruct (py_lt _ _); [left; auto|].
    destruct (io_fault _ (RSelect _)); [left; auto|].
    destruct (select_by_number (rows s) _) as [ta|]; [|left; auto].
    destruct (exec_update io_fault s _ _) as [s1|e] eqn:U1; [|left; auto].
    destruct (exec_update io_fault s1 _ _) as [s2|e] eqn:U2; [|left; auto].
    left. simpl.
    destruct (exec_update_shape _ _ _ _ _ U1) as [K1 S1].
    destruct (exec_update_shape _ _ _ _ _ U2) as [K2 S2].
    split; congruence.
Qed.

Lemma select_none_not_in rs n :
  select_by_number rs n = None -> ~ In n (map account_number rs).
Proof.
  induction rs as [|r rs IH]; simpl; [auto|].
  destruct (String.eqb (account_number r) n) eqn:E; [discriminate|].
  intros H [Heq|Hin]; [|exact (IH H Hin)].
  subst n. rewrite String.eqb_refl in E. discriminate.
Qed.

Lemma handle_numbers_unique io_fault s r :
  account_numbers_unique s -> account_numbers_unique (handle io_fault s r).
Proof.
  unfold account_numbers_unique. intros U.
  destruct (handle_shape io_fault s r) as [[K _]|(n & h & v & Hn & R & _)].
  - replace (map account_number (rows (handle io_fault s r)))
      with (map snd (map row_key (rows (handle io_fault s r))))
      by (rewrite map_map; reflexivity).
    rewrite K, map_map. exact U.
  - rewrite R, map_app. simpl.
    apply NoDup_app; [exact U|constructor; [simpl; tauto|constructor]|].
    intros x Hx [Hy|[]]. subst x. exact (select_none_not_in _ _ Hn Hx).
Qed.

Lemma reachable_open_accounts s l : reachable s -> reachable (open_accounts s l).
Proof.
  revert s. induction l as [|[n d] l IH]; intros s H; simpl; [exact H|].
  apply IH. exact (reachable_step no_fault s (CreateAccount (AccountCreate.mk "holder" d) n) H).
Qed.

(** Every table reachable from the empty one holds each account number at most
    once: [create_account] inserts only numbers not yet present (the
    [UNIQUE] constraint) and the other requests never change a number. *)
Theorem reachable_numbers_unique s :
  reachable s -> account_numbers_unique s.
Proof.
  induction 1 as [|io_fault s r _ IH].
  - constructor.
  - apply handle_numbers_unique. exact IH.
Qed.

Lemma reachable_numbers_unique_witness :
  reachable (open_accounts init_db [(acc_a, 100%float); (acc_b, 0%float)]) /\
  account_numbers_unique (open_accounts init_db [(acc_a, 100%float); (acc_b, 0%float)]).
Proof.
  assert (R : reachable (open_accounts init_db [(acc_a, 100%float); (acc_b, 0%float)]))
    by (apply reachable_open_accounts; constructor).
  split; [exact R|]. apply reachable_numbers_unique. exact R.
Defined.

(** Every table reachable from the empty one carries the ids 1, 2, ..., n
    in row order with the AUTOINCREMENT counter at n: a successful
    [create_account] takes the next id, and a failed one (rolled back) or any
    other request uses none. *)
Theorem reachable_ids_in_order s :
  reachable s -> ids_in_order s.
Proof.
  induction 1 as [|io_fault s r _ [Hids Hseq]].
  - split; reflexivity.
  - unfold ids_in_order.
    destruct (handle_shape io_fault s r) as [[K S]|(n & h & v & _ & R & S)].
    + assert (L : length (rows (handle io_fault s r)) = length (rows s)).
      { rewrite <- (length_map row_key (rows (handle io_fault s r))), K.
        apply length_map. }
      rewrite L, S. split; [|exact Hseq].
      replace (map id (rows (handle io_fault s r)))
        with (map fst (map row_key (rows (handle io_fault s r))))
        by (rewrite map_map; reflexivity).
      rewrite K, map_map. exact Hids.
    + rewrite R, S, length_app, map_app, Hids, Nat.add_1_r, List.seq_S, map_app.
      simpl. split; [|lia].
      f_equal. f_equal. f_equal. lia.
Qed.

Lemma reachable_ids_in_order_witness :
  reachable (open_accounts init_db [(acc_a, 100%float); (acc_b, 0%float)]) /\
  ids_in_order (open_accounts init_db [(acc_a, 100%float); (acc_b, 0%float)]).
Proof.
  assert (R : reachable (open_accounts init_db [(acc_a, 100%float); (acc_b, 0%float)]))
    by (apply reachable_open_accounts; constructor).
  split; [exact R|]. apply reachable_ids_in_order. exact R.
Defined.

Lemma select_unique rs n a :
  NoDup (map account_number rs) -> In a rs -> account_number a = n ->
  select_by_number rs n = Some a.
Proof.
  induction rs as [|r rs IH]; simpl; [tauto|].
  intros ND [<-|Hin] Hn.
  - rewrite Hn, String.eqb_refl. reflexivity.
  - inversion ND as [|x l Hnot ND']; subst.
    destruct (String.eqb (account_number r) (account_number a)) eqn:E.
    + apply String.eqb_eq in E. exfalso. apply Hnot. rewrite E. apply in_map. exact Hin.
    + apply IH; auto.
Qed.

(** In every reachable table, [get_account_by_number] (hence
    [check_balance]) finds any stored account by its number when its
    [SELECT] succeeds: the first-match [fetchone()] never hides a second row
    with that number. *)
Theorem reachable_lookup_exact io_fault s a :
  reachable s -> In a (rows s) ->
  io_fault (rows s) (RSelect (account_number a)) = None ->
  get_account_by_number io_fault s (account_number a) = Return a.
Proof.
  intros R Hin Hr. unfold get_account_by_number. rewrite Hr.
  assert (U : account_numbers_unique s).
  { clear Hin Hr. induction R as [|io_step s r _ IH]; [constructor|].
    apply handle_numbers_unique. exact IH. }
  rewrite (select_unique _ _ a U Hin eq_refl). reflexivity.
Qed.

Lemma reachable_lookup_exact_witness :
  reachable (open_accounts init_db [(acc_a, 100%float); (acc_b, 0%float)]) /\
  In (mkAccount 2 acc_b "holder" 0)
     (rows (open_accounts init_db [(acc_a, 100%float); (acc_b, 0%float)])) /\
  no_fault (rows (open_accounts init_db [(acc_a, 100%float); (acc_b, 0%float)]))
    (RSelect acc_b) = None /\
  get_account_by_number no_fault
    (open_accounts init_db [(acc_a, 100%float); (acc_b, 0%float)]) acc_b
  = Return (mkAccount 2 acc_b "holder" 0).
Proof.
  assert (R : reachable (open_accounts init_db [(acc_a, 100%float); (acc_b, 0%float)]))
    by (apply reachable_open_accounts; constructor).
  assert (I : In (mkAccount 2 acc_b "holder" 0)
                (rows (open_accounts init_db [(acc_a, 100%float); (acc_b, 0%float)])))
    by (vm_compute; tauto).
  split; [exact R|]. split; [exact I|]. split; [reflexivity|].
  exact (reachable_lookup_exact no_fault _ (mkAccount 2 acc_b "holder" 0) R I eq_refl).
Defined.

(** ** Withdrawing a whole balance *)

Lemma finite_positive b :
  py_lt 0 b = true -> py_lt b infinity = true ->
  exists m e, Prim2SF b = S754_finite false m e.
Proof.
  unfold py_lt. rewrite !ltb_spec, FloatFacts.Prim2SF_zero.
  change (Prim2SF infinity) with (S754_infinity false).
  destruct (Prim2SF b) as [[]|[]| |[] m e]; unfold SFltb, SFcompare;
    try discriminate; eauto.
Qed.

Lemma sub_self b m e : Prim2SF b = S754_finite false m e -> (b - b)%float = 0%float.
Proof.
  intros Hb. apply Prim2SF_inj.
  rewrite sub_spec, FloatFacts.Prim2SF_zero, Hb.
  unfold SF64sub, SFsub. rewrite Z.min_id. unfold shl_align. rewrite Z.sub_diag.
  cbn [fst cond_Zopp negb]. reflexivity.
Qed.

(** Withdrawing exactly the stored balance, when that balance is positive and
    finite, passes the [balance < amount] check and leaves exactly [0.0]:
    [balance - balance] is exact in binary64. *)
Theorem withdraw_whole_balance io_fault s n a :
  io_fault (rows s) (RSelect n) = None ->
  select_by_number (rows s) n = Some a ->
  py_lt 0 (balance a) = true -> py_lt (balance a) infinity = true ->
  io_fault (rows s) (WUpdate n 0) = None ->
  exists s',
    withdraw io_fault s n (Transaction.mk (balance a)) = (Return (with_balance a 0), s') /\
    select_by_number (rows s') n = Some (with_balance a 0).
Proof.
  intros Hr Hsel Hpos Hfin Hio.
  destruct (finite_positive _ Hpos Hfin) as (m & e & Hb).
  assert (Le : py_le (balance a) 0 = false).
  { unfold py_le. rewrite leb_spec, Hb, FloatFacts.Prim2SF_zero. reflexivity. }
  assert (Lt : py_lt (balance a) (balance a) = false).
  { unfold py_lt. rewrite ltb_spec, Hb. unfold SFltb, SFcompare.
    rewrite Z.compare_refl, Pos.compare_cont_refl. reflexivity. }
  unfold withdraw, get_account_by_number. cbn [Transaction.amount].
  rewrite Le, Hr, Hsel, Lt, (sub_self _ _ _ Hb).
  destruct (exec_update io_fault s n 0) as [s'|err] eqn:U.
  - exists s'. split; [reflexivity|].
    rewrite (select_after_update _ _ _ _ _ _ U), String.eqb_refl, Hsel. reflexivity.
  - unfold exec_update in U. change (binds_as_null 0) with false in U.
    rewrite Hio in U. discriminate.
Qed.

Lemma withdraw_whole_balance_witness :
  no_fault (rows (open_accounts init_db [(acc_a, 100%float)])) (RSelect acc_a) = None /\
  select_by_number (rows (open_accounts init_db [(acc_a, 100%float)])) acc_a
  = Some (mkAccount 1 acc_a "holder" 100) /\
  exists s',
    withdraw no_fault (open_accounts init_db [(acc_a, 100%float)]) acc_a
      (Transaction.mk (balance (mkAccount 1 acc_a "holder" 100)))
    = (Return (with_balance (mkAccount 1 acc_a "holder" 100) 0), s') /\
    select_by_number (rows s') acc_a = Some (with_balance (mkAccount 1 acc_a "holder" 100) 0).
Proof.
  assert (S : select_by_number (rows (open_accounts init_db [(acc_a, 100%float)])) acc_a
              = Some (mkAccount 1 acc_a "holder" 100)) by (vm_compute; reflexivity).
  split; [reflexivity|]. split; [exact S|].
  apply (withdraw_whole_balance no_fault _ acc_a _ eq_refl S);
    [vm_compute; reflexivity|vm_compute; reflexivity|reflexivity].
Defined.

(** ** Generated account numbers *)

Lemma digits_get i :
  (i < 10)%nat -> exists c, String.get i digits = Some c /\ is_digit c = true.
Proof.
  intros H.
  do 10 (destruct i as [|i]; [eexists; split; reflexivity|]). lia.
Qed.

Lemma generate_fold (pick : nat -> nat) l :
  (forall i, In i l -> (pick i < 10)%nat) ->
  String.length
    (fold_right (fun i acc =>
                   match String.get (pick i) digits with
                   | Some c => String c acc
                   | None => acc
                   end) EmptyString l) = length l /\
  (forall k c,
     String.get k
       (fold_right (fun i acc =>
                      match String.get (pick i) digits with
                      | Some c => String c acc
                      | None => acc
                      end) EmptyString l) = Some c -> is_digit c = true).
Proof.
  induction l as [|i l IH]; intros H; cbn [fold_right].
  - split; [reflexivity|]. intros k c Hk. destruct k; discriminate.
  - destruct (digits_get (pick i) (H i (or_introl eq_refl))) as (c & E & D).
    destruct IH as [L G]; [intros j Hj; apply H; right; exact Hj|].
    rewrite E. cbn [String.length length]. split; [f_equal; exact L|].
    intros [|k] c' Hk; simpl in Hk; [injection Hk as <-; exact D|exact (G k c' Hk)].
Qed.

(** [generate_account_number()] always yields a string of ten ASCII digits,
    whatever indices [random.choices] draws. *)
Theorem generated_number_ten_digits pick :
  (forall i, (i < 10)%nat -> (pick i < 10)%nat) ->
  String.length (generate_account_number pick) = 10%nat /\
  (forall k c, String.get k (generate_account_number pick) = Some c -> is_digit c = true).
Proof.
  intros H. unfold generate_account_number.
  destruct (generate_fold pick (List.seq 0 10)) as [L G].
  - intros i Hi. apply in_seq in Hi. apply H. lia.
  - split; [rewrite L; apply length_seq|exact G].
Qed.

Lemma generated_number_ten_digits_witness :
  (forall i, (i < 10)%nat -> (Nat.modulo (7 * i + 3) 10 < 10)%nat) /\
  String.length (generate_account_number (fun i => Nat.modulo (7 * i + 3) 10)) = 10%nat /\
  (forall k c, String.get k (generate_account_number (fun i => Nat.modulo (7 * i + 3) 10))
               = Some c -> is_digit c = true).
Proof.
  assert (H : forall i, (i < 10)%nat -> (Nat.modulo (7 * i + 3) 10 < 10)%nat)
    by (intros i _; apply Nat.mod_upper_bound; discriminate).
  split; [exact H|]. exact (generated_number_ten_digits _ H).
Defined.

(** ** Deposits and withdrawals on different accounts commute *)

Lemma account_op_effect r n t :
  r = Deposit n t \/ r = Withdraw n t ->
  exists F : option Account -> option float, forall s,
    handle no_fault s r =
    match F (select_by_number (rows s) n) with
    | None => s
    | Some v => mkStore (set_balance (rows s) n v) (seq s)
    end.
Proof.
  intros [-> | ->].
  - exists (fun o => if py_le (Transaction.amount t) 0 then None else
                     match o with
                     | None => None
                     | Some a =>
                         if binds_as_null (balance a + Transaction.amount t)%float
                         then None else Some (balance a + Transaction.amount t)%float
                     end).
    intros s. simpl. unfold deposit, get_account_by_number, exec_update, no_fault.
    destruct (py_le _ 0); [reflexivity|].
    destruct (select_by_number (rows s) n); [|reflexivity].
    destruct (binds_as_null _); reflexivity.
  - exists (fun o => if py_le (Transaction.amount t) 0 then None else
                     match o with
                     | None => None
                     | Some a =>
                         if py_lt (balance a) (Transaction.amount t) then None else
                         if binds_as_null (balance a - Transaction.amount t)%float
                         then None else Some (balance a - Transaction.amount t)%float
                     end).
    intros s. simpl. unfold withdraw, get_account_by_number, exec_update, no_fault.
    destruct (py_le _ 0); [reflexivity|].
    destruct (select_by_number (rows s) n); [|reflexivity].
    destruct (py_lt _ _); [reflexivity|].
    destruct (binds_as_null _); reflexivity.
Qed.

Lemma select_set_other rs n1 n2 v :
  n1 <> n2 -> select_by_number (set_balance rs n1 v) n2 = select_by_number rs n2.
Proof.
  intros Hn. induction rs as [|r rs IH]; [reflexivity|]. simpl.
  destruct (String.eqb (account_number r) n1) eqn:E1; simpl; [|rewrite IH; reflexivity].
  destruct (String.eqb (account_number r) n2) eqn:E2; [|exact IH].
  apply String.eqb_eq in E1, E2. congruence.
Qed.

Lemma set_balance_comm rs n1 n2 v1 v2 :
  n1 <> n2 ->
  set_balance (set_balance rs n1 v1) n2 v2 = set_balance (set_balance rs n2 v2) n1 v1.
Proof.
  intros Hn. induction rs as [|r rs IH]; [reflexivity|]. simpl.
  destruct (String.eqb (account_number r) n1) eqn:E1;
    destruct (String.eqb (account_number r) n2) eqn:E2; simpl;
    rewrite ?E1, ?E2, IH; try reflexivity.
  apply String.eqb_eq in E1, E2. congruence.
Qed.

(** With the store accepting every write, a deposit or withdrawal on one
    account and a deposit or withdrawal on another give the same table in
    either order, failures included: each reads and writes only its own
    account's row. *)
Theorem account_ops_commute s r1 r2 n1 n2 t1 t2 :
  (r1 = Deposit n1 t1 \/ r1 = Withdraw n1 t1) ->
  (r2 = Deposit n2 t2 \/ r2 = Withdraw n2 t2) ->
  n1 <> n2 ->
  handle no_fault (handle no_fault s r1) r2 = handle no_fault (handle no_fault s r2) r1.
Proof.
  intros H1 H2 Hn.
  destruct (account_op_effect r1 n1 t1 H1) as [F1 E1].
  destruct (account_op_effect r2 n2 t2 H2) as [F2 E2].
  rewrite (E1 s), (E2 s).
  destruct (F1 (select_by_number (rows s) n1)) as [v1|] eqn:A;
    destruct (F2 (select_by_number (rows s) n2)) as [v2|] eqn:B;
    rewrite ?E1, ?E2; cbn [rows seq];
    rewrite ?(select_set_other _ _ _ _ Hn),
            ?(select_set_other _ _ _ _ (not_eq_sym Hn)), ?A, ?B;
    try reflexivity.
  rewrite set_balance_comm by exact Hn. reflexivity.
Qed.

Lemma account_ops_commute_witness :
  (Deposit acc_a (Transaction.mk 10) = Deposit acc_a (Transaction.mk 10) \/
   Deposit acc_a (Transaction.mk 10) = Withdraw acc_a (Transaction.mk 10)) /\
  (Withdraw acc_b (Transaction.mk 5) = Deposit acc_b (Transaction.mk 5) \/
   Withdraw acc_b (Transaction.mk 5) = Withdraw acc_b (Transaction.mk 5)) /\
  acc_a <> acc_b /\
  handle no_fault
    (handle no_fault (open_accounts init_db [(acc_a, 100%float); (acc_b, 20%float)])
       (Deposit acc_a (Transaction.mk 10)))
    (Withdraw acc_b (Transaction.mk 5))
  = handle no_fault
      (handle no_fault (open_accounts init_db [(acc_a, 100%float); (acc_b, 20%float)])
         (Withdraw acc_b (Transaction.mk 5)))
      (Deposit acc_a (Transaction.mk 10)).
Proof.
  assert (H1 : Deposit acc_a (Transaction.mk 10) = Deposit acc_a (Transaction.mk 10) \/
               Deposit acc_a (Transaction.mk 10) = Withdraw acc_a (Transaction.mk 10))
    by (left; reflexivity).
  assert (H2 : Withdraw acc_b (Transaction.mk 5) = Deposit acc_b (Transaction.mk 5) \/
               Withdraw acc_b (Transaction.mk 5) = Withdraw acc_b (Transaction.mk 5))
    by (right; reflexivity).
  assert (Hn : acc_a <> acc_b) by discriminate.
  split; [exact H1|]. split; [exact H2|]. split; [exact Hn|].
  exact (account_ops_commute _ _ _ acc_a acc_b _ _ H1 H2 Hn).
Defined.

Lemma transfer_selects_in_autocommit_witness :
  In (Sqlite3Driver.Select acc_a, false)
     (Sqlite3Driver.annotate false
        (Sqlite3Driver.transfer_statements no_fault
           (open_accounts init_db [(acc_a, 100%float); (acc_b, 0%float)])
           (Transfer.mk acc_a acc_b 50))) /\
  false = false.
Proof.
  assert (I : In (Sqlite3Driver.Select acc_a, false)
                (Sqlite3Driver.annotate false
                   (Sqlite3Driver.transfer_statements no_fault
                      (open_accounts init_db [(acc_a, 100%float); (acc_b, 0%float)])
                      (Transfer.mk acc_a acc_b 50)))) by (vm_compute; tauto).
  split; [exact I|].
  exact (transfer_selects_in_autocommit _ _ _ _ _ I).
Defined.
